(** * Neutral Minds triage system: the Python front end over its knowledge base

    [triage.py] drives a Prolog knowledge base ([triage_kb.pl]) through
    pyswip.  This development embeds

    - the Python layer of [triage.py] (class [TriageEngine],
      [run_interactive] up to the menu loop, [run_triage_for_symptoms])
      as computations in a state-and-exception monad over an abstract
      platform (file system plus Prolog process), and
    - the knowledge base, which is not among the sources, as the rule
      catalog and engine operations that the specification describes
      (module [Kb]),

    and proves the properties the specification states about them. *)

From Stdlib Require Import String Ascii ZArith List.
From stdpp Require Import base tactics option list strings pretty.

Local Open Scope string_scope.
Local Open Scope list_scope.

(** ** Python values and exceptions *)

(** What pyswip hands back for a bound variable: an atom, which arrives as
    a Python [str], or a list of terms.  Prolog strings (which arrive as
    bytes), numbers and unbound variables are not modelled. *)
#[warnings="-register-all"]
Inductive term : Type :=
| Atom (name : string)
| PList (items : list term).

(** One solution of a query: the dict from variable names to values. *)
Definition solution : Type := list (string * term).

(** The exceptions that can travel through [triage.py].  [SystemExit] and
    [KeyboardInterrupt] derive from [BaseException] only, so a clause
    [except Exception] lets them through.  [UnknownSymptomError] and
    [ConfigurationError] are the error kinds named in the specification;
    [triage.py] defines neither, they can only come out of a query. *)
Inductive exn : Type :=
| FileNotFoundError (msg : string)
| PrologError (msg : string)
| KeyError (key : string)
| TypeError (msg : string)
| UnknownSymptomError (symptom : string)
| ConfigurationError (msg : string)
| EOFError
| KeyboardInterrupt
| SystemExit (code : Z).

Definition is_Exception (e : exn) : bool :=
  match e with
  | KeyboardInterrupt | SystemExit _ => false
  | _ => true
  end.

Definition is_FileNotFoundError (e : exn) : bool :=
  match e with
  | FileNotFoundError _ => true
  | _ => false
  end.

(** [str(e)] for an exception: its message. *)
Definition exn_str (e : exn) : string :=
  match e with
  | FileNotFoundError msg | PrologError msg | TypeError msg
  | ConfigurationError msg => msg
  | KeyError key => "'" +:+ key +:+ "'"
  | UnknownSymptomError symptom => symptom
  | EOFError | KeyboardInterrupt => ""
  | SystemExit code => pretty code
  end.

Inductive outcome (A : Type) : Type :=
| Return (a : A)
| Raise (e : exn).
Arguments Return {A} a.
Arguments Raise {A} e.

(** ** Queries *)

(** The goals [triage.py] sends to Prolog.  Each constructor stands for one
    query string of the source; [goal_text] spells it out.  The
    interpolated symptom or level is passed on as one atom. *)
Inductive goal : Type :=
| clear_symptoms_goal
| add_symptom_goal (symptom : string)
| remove_symptom_goal (symptom : string)
| current_symptoms_goal
| available_symptom_goal
| triage_goal
| fired_rules_goal (level : string).

Definition goal_text (g : goal) : string :=
  match g with
  | clear_symptoms_goal => "clear_symptoms"
  | add_symptom_goal symptom => "add_symptom(" +:+ symptom +:+ ")"
  | remove_symptom_goal symptom => "remove_symptom(" +:+ symptom +:+ ")"
  | current_symptoms_goal => "current_symptoms(S)"
  | available_symptom_goal => "available_symptom(Id, Desc)"
  | triage_goal => "triage(Level, Explanations)"
  | fired_rules_goal level =>
      "fired_rules(" +:+ level +:+ ", Rules), Rules \= [], "
      +:+ "extract_explanations(Rules, Explanations)"
  end.

(** ** The platform

    Everything outside [triage.py] that its code touches: the file system
    ([Path.exists], [Path.resolve]), the directory the module lives in, and
    the Prolog process behind pyswip.  pyswip's [Prolog] is one engine per
    process, so its database is part of the environment and is shared by
    every [TriageEngine] object. *)
Record Platform : Type := {
  Env : Type;
  module_dir : string;
  path_exists : string -> Env -> bool;
  path_resolve : string -> Env -> string;
  consult : string -> Env -> outcome unit * Env;
  query : goal -> Env -> outcome (list solution) * Env
}.

(** ** String helpers *)

(** [s.replace(a, b)] for one-character [a] and [b]. *)
Fixpoint replace_char (a b : ascii) (s : string) : string :=
  match s with
  | EmptyString => EmptyString
  | String c rest =>
      String (if Ascii.eqb c a then b else c) (replace_char a b rest)
  end.

Definition join (sep : string) (parts : list string) : string :=
  match parts with
  | [] => ""
  | p :: rest => fold_left (fun acc q => acc +:+ sep +:+ q) rest p
  end.

(** The characters of a text, as iterating over a Python [str] gives
    them.  Text is held as UTF-8 bytes: a character is a byte that is not
    a continuation byte, with the continuation bytes that follow it. *)
Definition is_continuation (c : ascii) : bool :=
  let n := nat_of_ascii c in ((128 <=? n) && (n <=? 191))%nat.

Definition starts_with_continuation (s : string) : bool :=
  match s with
  | EmptyString => false
  | String c _ => is_continuation c
  end.

Fixpoint characters (s : string) : list string :=
  match s with
  | EmptyString => []
  | String c rest =>
      match characters rest with
      | next :: others =>
          if starts_with_continuation rest then String c next :: others
          else String c EmptyString :: next :: others
      | [] => [String c EmptyString]
      end
  end.

Definition contains_char (c : ascii) (s : string) : bool :=
  existsb (Ascii.eqb c) (list_ascii_of_string s).

Definition hex_digit (n : nat) : string :=
  String (nth n (list_ascii_of_string "0123456789abcdef") "0"%char) EmptyString.

(** One character of [repr(s)] for a [str]: the quote in use and the
    backslash are escaped, control characters are written [\t], [\n],
    [\r] or [\xNN]; bytes of characters outside ASCII are kept (Python
    keeps the printable ones). *)
Definition repr_char (quote c : ascii) : string :=
  let n := nat_of_ascii c in
  if Ascii.eqb c quote || Ascii.eqb c "\"%char then
    String "\"%char (String c EmptyString)
  else if (n =? 9)%nat then "\t"
  else if (n =? 10)%nat then "\n"
  else if (n =? 13)%nat then "\r"
  else if ((n <? 32) || (n =? 127))%nat then
    "\x" +:+ hex_digit (n / 16) +:+ hex_digit (n mod 16)
  else String c EmptyString.

Fixpoint repr_chars (quote : ascii) (s : string) : string :=
  match s with
  | EmptyString => EmptyString
  | String c rest => repr_char quote c +:+ repr_chars quote rest
  end.

(** [repr(s)] for a [str]: single quotes, unless the text holds a single
    quote and no double quote. *)
Definition repr_str (s : string) : string :=
  let single := "'"%char in
  let double := ascii_of_nat 34 in
  let quote :=
    if contains_char single s && negb (contains_char double s) then double
    else single in
  String quote (repr_chars quote s) +:+ String quote EmptyString.

(** [repr(t)] for a value returned by a query. *)
Fixpoint repr (t : term) : string :=
  match t with
  | Atom name => repr_str name
  | PList items => "[" +:+ join ", " (map repr items) +:+ "]"
  end.

(** [str(t)] for a value returned by a query: an atom is its own text, a
    list is written as Python writes a list, with the [repr] of its
    elements. *)
Definition str (t : term) : string :=
  match t with
  | Atom name => name
  | PList _ => repr t
  end.

(** ** Constants of [triage.py] *)

Definition ESC : string := String "027"%char EmptyString.

Definition DISCLAIMER : string := "
╔══════════════════════════════════════════════════════════════════════════════╗
║  ⚠  DISCLAIMER                                                            ║
║                                                                            ║
║  Neutral Minds is a DEMONSTRATION rule-based triage system.                ║
║  It is NOT a medical diagnostic tool.                                      ║
║  It does NOT replace professional medical advice, diagnosis, or treatment. ║
║                                                                            ║
║  If you are experiencing a medical emergency, call your local emergency    ║
║                                                                            ║
╚══════════════════════════════════════════════════════════════════════════════╝
".

Definition URGENCY_COLORS : list (string * string) :=
  [ ("critical", ESC +:+ "[91m");
    ("urgent", ESC +:+ "[93m");
    ("moderate", ESC +:+ "[96m");
    ("low", ESC +:+ "[92m");
    ("none", ESC +:+ "[90m") ].
Definition RESET_COLOR : string := ESC +:+ "[0m".
Definition BOLD : string := ESC +:+ "[1m".

(** [l.count(x)] *)
Definition count (x : string) (l : list string) : nat :=
  length (filter (fun s => s = x) l).

(** ** Dicts with string keys, in insertion order *)

Fixpoint dict_get {V : Type} (d : list (string * V)) (key : string) : option V :=
  match d with
  | [] => None
  | (k, v) :: rest => if String.eqb k key then Some v else dict_get rest key
  end.

(** [d[key] = v]: an existing key keeps its place, a new one goes last. *)
Fixpoint dict_set {V : Type} (d : list (string * V)) (key : string) (v : V)
  : list (string * V) :=
  match d with
  | [] => [(key, v)]
  | (k, v0) :: rest =>
      if String.eqb k key then (k, v) :: rest
      else (k, v0) :: dict_set rest key v
  end.

(** [{k: v for k, v in pairs}] *)
Definition dict_of_pairs {V : Type} (pairs : list (string * V))
  : list (string * V) :=
  fold_left (fun d kv => dict_set d (fst kv) (snd kv)) pairs [].

Definition dict_keys {V : Type} (d : list (string * V)) : list string :=
  map fst d.

(** The dict [run_triage_for_symptoms] returns. *)
Record TriageResult : Type := {
  level : string;
  explanations : list string;
  all_levels : list (string * list string);
  symptoms : list string
}.

(** ** The Python layer *)

Section Python.

Context (P : Platform).

(** The state a run of the program threads through: the platform's
    environment and what has been printed (one entry per [print]). *)
Record World : Type := {
  env : Env P;
  stdout : list string
}.

Definition Py (A : Type) : Type := World -> outcome A * World.

#[global] Instance Py_ret : MRet Py :=
  fun A (a : A) (w : World) => (Return a, w).

#[global] Instance Py_bind : MBind Py :=
  fun A B (f : A -> Py B) (m : Py A) (w : World) =>
    match m w with
    | (Return a, w') => f a w'
    | (Raise e, w') => (Raise e, w')
    end.

Definition raise {A : Type} (e : exn) : Py A :=
  fun w => (Raise e, w).

(** [try: body / except <class>: handler]: [handler e] is [None] when no
    clause matches [e], which then propagates; what [body] did to the
    world before raising stays done. *)
Definition try_except {A : Type} (body : Py A) (handler : exn -> option (Py A))
  : Py A :=
  fun w =>
    match body w with
    | (Return a, w') => (Return a, w')
    | (Raise e, w') =>
        match handler e with
        | Some h => h w'
        | None => (Raise e, w')
        end
    end.

(** Lifting a platform operation on the environment to the world. *)
Definition on_env {A : Type} (op : Env P -> outcome A * Env P) : Py A :=
  fun w =>
    let '(r, e') := op (env w) in
    (r, {| env := e'; stdout := stdout w |}).

Definition print (text : string) : Py unit :=
  fun w => (Return tt, {| env := env w; stdout := stdout w ++ [text] |}).

(** [sys.exit(code)] *)
Definition sys_exit {A : Type} (code : Z) : Py A :=
  raise (SystemExit code).

(** [for x in xs: body(x)] *)
Fixpoint for_in {A : Type} (xs : list A) (body : A -> Py unit) : Py unit :=
  match xs with
  | [] => mret tt
  | x :: rest => body x ;; for_in rest body
  end.

(** [[f(x) for x in xs]] *)
Fixpoint comprehension {A B : Type} (f : A -> Py B) (xs : list A) : Py (list B) :=
  match xs with
  | [] => mret []
  | x :: rest => y ← f x; ys ← comprehension f rest; mret (y :: ys)
  end.

(** [sol[key]] *)
Definition subscript (sol : solution) (key : string) : Py term :=
  match dict_get sol key with
  | Some t => mret t
  | None => raise (KeyError key)
  end.

(** Iterating over a value a query returned: a list gives its elements,
    an atom, being a [str], its characters. *)
Definition iterate (t : term) : Py (list term) :=
  match t with
  | PList items => mret items
  | Atom name => mret (map Atom (characters name))
  end.

(** [list(self.prolog.query(...))] *)
Definition prolog_query (g : goal) : Py (list solution) :=
  on_env (query P g).

Definition KB_PATH : string := module_dir P +:+ "/triage_kb.pl".

(** *** class TriageEngine

    An engine object holds nothing but [self.prolog], the handle on the
    process-wide Prolog, so the methods take no [self]. *)

Definition TriageEngine_init (kb_path : string) : Py unit :=
  resolved ← on_env (fun e => (Return (path_resolve P kb_path e), e));
  let kb_posix := replace_char "\"%char "/"%char resolved in
  found ← on_env (fun e => (Return (path_exists P kb_path e), e));
  if negb found then
    raise (FileNotFoundError ("Knowledge base not found: " +:+ kb_path))
  else
    on_env (consult P kb_posix) ;;
    prolog_query clear_symptoms_goal ;;
    mret tt.

Definition add_symptom (symptom : string) : Py unit :=
  prolog_query (add_symptom_goal symptom) ;; mret tt.

Definition remove_symptom (symptom : string) : Py unit :=
  prolog_query (remove_symptom_goal symptom) ;; mret tt.

Definition clear_symptoms : Py unit :=
  prolog_query clear_symptoms_goal ;; mret tt.

Definition get_current_symptoms : Py (list string) :=
  results ← prolog_query current_symptoms_goal;
  match results with
  | first :: _ =>
      S ← subscript first "S";
      items ← iterate S;
      mret (map str items)
  | [] => mret []
  end.

Definition get_available_symptoms : Py (list (string * string)) :=
  results ← prolog_query available_symptom_goal;
  comprehension
    (fun r => Id ← subscript r "Id"; Desc ← subscript r "Desc";
              mret (str Id, str Desc))
    results.

Definition run_triage : Py (string * list string) :=
  results ← prolog_query triage_goal;
  match results with
  | first :: _ =>
      Level ← subscript first "Level";
      Explanations ← subscript first "Explanations";
      items ← iterate Explanations;
      mret (str Level, map str items)
  | [] => mret ("none", ["Unable to determine triage level."])
  end.

(** The loop of [run_triage_all], with the list built so far. *)
Fixpoint run_triage_all_from (levels : list string)
    (all_levels : list (string * list string))
  : Py (list (string * list string)) :=
  match levels with
  | [] => mret all_levels
  | level :: rest =>
      results ← prolog_query (fired_rules_goal level);
      match results with
      | first :: _ =>
          Explanations ← subscript first "Explanations";
          items ← iterate Explanations;
          run_triage_all_from rest (all_levels ++ [(level, map str items)])
      | [] => run_triage_all_from rest all_levels
      end
  end.

Definition run_triage_all : Py (list (string * list string)) :=
  run_triage_all_from ["critical"; "urgent"; "moderate"; "low"] [].

(** *** Module-level functions *)

Definition BANNER : string := "
" +:+ BOLD +:+ "╔══════════════════════════════════════════════════════════════════════════════╗
║                                                                              ║
║               🏥  NEUTRAL MINDS  —  Medical Triage Expert System             ║
║                        Rule-Based Urgency Classification                     ║
║                                                                              ║
╚══════════════════════════════════════════════════════════════════════════════╝" +:+ RESET_COLOR +:+ "
".

Definition print_banner : Py unit := print BANNER.

Definition color (key : string) : string :=
  default "" (dict_get URGENCY_COLORS key).

Definition print_disclaimer : Py unit :=
  print (color "urgent" +:+ DISCLAIMER +:+ RESET_COLOR).

(** [run_interactive], lines 153-169: start-up.  The menu loop that follows
    (lines 171-260) is the parameter [menu_loop], given the list of
    available symptoms. *)
Definition run_interactive (menu_loop : list (string * string) -> Py unit)
  : Py unit :=
  print_banner ;;
  print_disclaimer ;;
  try_except (TriageEngine_init KB_PATH)
    (fun e =>
       if is_FileNotFoundError e then
         Some (print ("
" +:+ color "critical" +:+ "ERROR: " +:+ exn_str e +:+ RESET_COLOR) ;;
               sys_exit 1)
       else if is_Exception e then
         Some (print ("
" +:+ color "critical" +:+ "ERROR initializing Prolog engine: "
                      +:+ exn_str e +:+ RESET_COLOR) ;;
               sys_exit 1)
       else None) ;;
  available ← get_available_symptoms;
  match available with
  | [] =>
      print "WARNING: No available symptoms loaded from knowledge base." ;;
      sys_exit 1
  | _ :: _ => menu_loop available
  end.

Definition run_triage_for_symptoms (symptoms : list string) : Py TriageResult :=
  TriageEngine_init KB_PATH ;;
  for_in symptoms add_symptom ;;
  '(level, explanations) ← run_triage;
  all_levels_dict ←
    try_except
      (all_levels ← run_triage_all; mret (dict_of_pairs all_levels))
      (fun e => if is_Exception e then Some (mret []) else None);
  mret {| level := level;
          explanations := explanations;
          all_levels := all_levels_dict;
          symptoms := symptoms |}.

End Python.

Arguments env {P} w.
Arguments stdout {P} w.
Arguments raise {P A} e.
Arguments try_except {P A} body handler.
Arguments on_env {P A} op.
Arguments for_in {P A} xs body.
Arguments comprehension {P A B} f xs.

(** ** The knowledge base

    [triage_kb.pl] is not among the sources.  This module is its model,
    written from the specification: the rule catalog of section 4.1, the
    engine operations of section 4.2 and the answers they give to the
    goals [triage.py] sends. *)

Module Kb.

(** Modelled from the spec: the urgency levels of [triage_kb.pl], the
    five totally ordered tiers of section 3. *)
Inductive Tier : Type := critical | urgent | moderate | low | none.

#[global] Instance Tier_eq_dec : EqDecision Tier.
Proof. solve_decision. Defined.

(** Modelled from the spec: the tier names the knowledge base answers
    with (section 6: critical|urgent|moderate|low|none). *)
Definition tier_name (t : Tier) : string :=
  match t with
  | critical => "critical"
  | urgent => "urgent"
  | moderate => "moderate"
  | low => "low"
  | none => "none"
  end.

(** Modelled from the spec: reading a tier name back, as the knowledge
    base does with the level atom of a [fired_rules] goal. *)
Definition tier_of_name (name : string) : option Tier :=
  if String.eqb name "critical" then Some critical
  else if String.eqb name "urgent" then Some urgent
  else if String.eqb name "moderate" then Some moderate
  else if String.eqb name "low" then Some low
  else if String.eqb name "none" then Some none
  else None.

(** Modelled from the spec: the fixed order
    critical > urgent > moderate > low > none. *)
Definition rank (t : Tier) : nat :=
  match t with
  | critical => 4
  | urgent => 3
  | moderate => 2
  | low => 1
  | none => 0
  end.

(** Modelled from the spec: the tiers a rule may carry, in descending
    priority (section 4.2, the scan order of [evaluate()]). *)
Definition rule_tiers : list Tier := [critical; urgent; moderate; low].

(** Modelled from the spec: a rule of [triage_kb.pl] (section 3): its
    tier, its condition and its explanation text. *)
Record Rule : Type := {
  rule_tier : Tier;
  condition : list string;
  explanation : string
}.

(** Modelled from the spec: the content of [triage_kb.pl] as the Rule
    Catalog of section 4.1, the symptom vocabulary with descriptions and
    the rules in definition order. *)
Record Catalog : Type := {
  symptom_table : list (string * string);
  rule_table : list Rule
}.

(** Modelled from the spec: the symptom vocabulary, the identifiers of
    the catalog's symptoms. *)
Definition vocabulary (cat : Catalog) : list string :=
  map fst (symptom_table cat).

(** Modelled from the spec: a rule passes the integrity check when its
    condition is not empty and its tier is not [none]. *)
Definition rule_ok (r : Rule) : bool :=
  bool_decide (condition r <> []) && bool_decide (rule_tier r <> none).

(** Modelled from the spec: the integrity check of [load()]: no duplicate
    symptom identifier, no empty condition set, no rule of tier [none]. *)
Definition well_formed (cat : Catalog) : bool :=
  bool_decide (NoDup (vocabulary cat)) && forallb rule_ok (rule_table cat).

(** Modelled from the spec: [load()], which fails with a
    [ConfigurationError] on malformed rule data. *)
Definition load (cat : Catalog) : outcome Catalog :=
  if well_formed cat then Return cat
  else Raise (ConfigurationError "malformed rule catalog").

(** Modelled from the spec: [all_symptoms()], the (identifier,
    description) pairs in order. *)
Definition all_symptoms (cat : Catalog) : list (string * string) :=
  symptom_table cat.

(** Modelled from the spec: [rules_for_tier(tier)], the rules of a tier
    in definition order. *)
Definition rules_for_tier (cat : Catalog) (t : Tier) : list Rule :=
  filter (fun r => rule_tier r = t) (rule_table cat).

(** Modelled from the spec: a rule fires iff its whole condition set is
    contained in the working set. *)
Definition fires (ws : list string) (r : Rule) : Prop :=
  condition r ⊆ ws.

#[global] Instance fires_dec ws r : Decision (fires ws r).
Proof. unfold fires. apply _. Defined.

(** Modelled from the spec: the rules of tier [t] that fire on [ws], in
    catalog order (the knowledge base's [fired_rules/2]). *)
Definition fired_rules (cat : Catalog) (t : Tier) (ws : list string)
  : list Rule :=
  filter (fires ws) (rules_for_tier cat t).

(** Modelled from the spec: [add_symptom(id)] on the working symptom set
    (section 4.2): an identifier outside the vocabulary is an
    [UnknownSymptomError], one already present changes nothing, a new one
    goes last. *)
Definition add_symptom (cat : Catalog) (id : string) (ws : list string)
  : outcome (list string) :=
  if decide (id ∈ vocabulary cat) then
    if decide (id ∈ ws) then Return ws else Return (ws ++ [id])%list
  else Raise (UnknownSymptomError id).

(** Modelled from the spec: [remove_symptom(id)]: the working set loses
    [id] if present; an absent [id] is a silent no-op. *)
Definition remove_symptom (id : string) (ws : list string) : list string :=
  filter (fun s => s <> id) ws.

(** Modelled from the spec: [clear_symptoms()] resets the working set. *)
Definition clear_symptoms (ws : list string) : list string := [].

(** Modelled from the spec: [current_symptoms()], the working set in
    insertion order. *)
Definition current_symptoms (ws : list string) : list string := ws.

(** Modelled from the spec: the scan of [evaluate()]: every tier in
    descending priority, kept with its explanations when a rule of it
    fires. *)
Definition breakdown (cat : Catalog) (ws : list string)
  : list (Tier * list string) :=
  omap (fun t =>
          match fired_rules cat t ws with
          | [] => None
          | fired => Some (t, map explanation fired)
          end)
       rule_tiers.

(** Modelled from the spec: the primary tier of [evaluate()], the
    highest tier of the breakdown with its explanations, [none] when the
    breakdown is empty. *)
Definition primary (cat : Catalog) (ws : list string) : Tier * list string :=
  match breakdown cat ws with
  | [] => (none, [])
  | first :: _ => first
  end.

(** *** The Prolog process holding the knowledge base *)

(** Modelled from the spec: the state of the process that holds the
    knowledge base: the files on disk (a knowledge-base file is the
    catalog it defines, looked up by its path with forward slashes), the
    catalog consulted so far and the asserted symptoms. *)
Record State : Type := {
  files : list (string * Catalog);
  loaded : option Catalog;
  working : list string
}.

(** Modelled from the spec: a change of the working set alone. *)
Definition with_working (st : State) (ws : list string) : State :=
  {| files := files st; loaded := loaded st; working := ws |}.

(** Modelled from the spec: the knowledge-base resource at a path, if
    there is one. *)
Definition read_file (path : string) (st : State) : option Catalog :=
  dict_get (files st) (replace_char "\"%char "/"%char path).

(** Modelled from the spec: consulting the knowledge base: a missing file
    is an error of Prolog, a malformed catalog a [ConfigurationError];
    symptoms asserted earlier stay asserted. *)
Definition consult_file (path : string) (st : State) : outcome unit * State :=
  match read_file path st with
  | None => (Raise (PrologError ("source_sink does not exist: " +:+ path)), st)
  | Some cat =>
      match load cat with
      | Return cat' =>
          (Return tt,
           {| files := files st; loaded := Some cat'; working := working st |})
      | Raise e => (Raise e, st)
      end
  end.

(** Modelled from the spec: a rule as the term bound to [Rules]. *)
Definition rule_term (r : Rule) : term :=
  PList [Atom (tier_name (rule_tier r));
         PList (map Atom (condition r));
         Atom (explanation r)].

(** Modelled from the spec: the answers of [triage_kb.pl] to the goals of
    [triage.py], its predicates being absent from the sources.  A goal
    that succeeds without binding anything has the one empty solution; a
    goal that fails has none.  [triage(Level, Explanations)] has no
    solution when no rule fires: the specification has no rule of tier
    [none]. *)
Definition answer (g : goal) (st : State) : outcome (list solution) * State :=
  match loaded st with
  | None => (Raise (PrologError ("Unknown procedure: " +:+ goal_text g)), st)
  | Some cat =>
      match g with
      | clear_symptoms_goal =>
          (Return [[]], with_working st (clear_symptoms (working st)))
      | add_symptom_goal id =>
          match add_symptom cat id (working st) with
          | Return ws => (Return [[]], with_working st ws)
          | Raise e => (Raise e, st)
          end
      | remove_symptom_goal id =>
          (Return [[]], with_working st (remove_symptom id (working st)))
      | current_symptoms_goal =>
          (Return [[("S", PList (map Atom (current_symptoms (working st))))]],
           st)
      | available_symptom_goal =>
          (Return (map (fun entry => [("Id", Atom (fst entry));
                                      ("Desc", Atom (snd entry))])
                       (all_symptoms cat)),
           st)
      | triage_goal =>
          match primary cat (working st) with
          | (none, _) => (Return [], st)
          | (t, exps) =>
              (Return [[("Level", Atom (tier_name t));
                        ("Explanations", PList (map Atom exps))]],
               st)
          end
      | fired_rules_goal level =>
          match tier_of_name level with
          | None => (Return [], st)
          | Some t =>
              match fired_rules cat t (working st) with
              | [] => (Return [], st)
              | fired =>
                  (Return [[("Rules", PList (map rule_term fired));
                            ("Explanations",
                             PList (map Atom (map explanation fired)))]],
                   st)
              end
          end
      end
  end.

(** Modelled from the spec: the platform on which [triage.py] runs
    against this knowledge base: paths are absolute, so resolving one
    changes nothing. *)
Definition platform (dir : string) : Platform :=
  {| Env := State;
     module_dir := dir;
     path_exists := fun path st => bool_decide (is_Some (read_file path st));
     path_resolve := fun path _ => path;
     consult := consult_file;
     query := answer |}.

End Kb.

(** ** A knowledge base for the documented rules *)

Definition mk_rule (t : Kb.Tier) (cond : list string) (text : string) : Kb.Rule :=
  {| Kb.rule_tier := t; Kb.condition := cond; Kb.explanation := text |}.

(** Modelled from the spec: the content of [triage_kb.pl], which is not
    among the sources.  Tiers and conditions are the rules that section 8
    and the docstrings of [test_triage.py] name; the vocabulary is the
    symptoms those rules mention.  Descriptions and explanation texts are
    placeholders that carry the key words the tests look for. *)
Definition triage_kb : Kb.Catalog :=
  {| Kb.symptom_table :=
       [ ("chest_pain", "Chest pain");
         ("shortness_of_breath", "Shortness of breath");
         ("left_arm_pain", "Left arm pain");
         ("unresponsive", "Unresponsive");
         ("severe_bleeding", "Severe bleeding");
         ("seizure", "Seizure");
         ("sudden_numbness", "Sudden numbness");
         ("confusion", "Confusion");
         ("severe_headache", "Severe headache");
         ("high_fever", "High fever");
         ("persistent_vomiting", "Persistent vomiting");
         ("stiff_neck", "Stiff neck");
         ("severe_abdominal_pain", "Severe abdominal pain");
         ("fever", "Fever");
         ("cough", "Cough");
         ("headache", "Headache");
         ("dizziness", "Dizziness");
         ("body_ache", "Body ache");
         ("joint_pain", "Joint pain");
         ("swelling", "Swelling");
         ("runny_nose", "Runny nose");
         ("sore_throat", "Sore throat");
         ("fatigue", "Fatigue") ];
     Kb.rule_table :=
       [ mk_rule Kb.critical ["chest_pain"; "shortness_of_breath"]
           "Chest pain with shortness of breath: cardiac or pulmonary risk";
         mk_rule Kb.critical ["chest_pain"; "left_arm_pain"]
           "Chest pain with left arm pain: myocardial infarction risk";
         mk_rule Kb.critical ["unresponsive"] "Unresponsive";
         mk_rule Kb.critical ["severe_bleeding"] "Severe bleeding";
         mk_rule Kb.critical ["seizure"] "Seizure";
         mk_rule Kb.critical ["sudden_numbness"; "confusion"; "severe_headache"]
           "Sudden numbness, confusion and severe headache: stroke risk";
         mk_rule Kb.urgent ["high_fever"; "persistent_vomiting"]
           "High fever with persistent vomiting";
         mk_rule Kb.urgent ["high_fever"; "stiff_neck"]
           "High fever with stiff neck: meningitis risk";
         mk_rule Kb.urgent ["severe_abdominal_pain"] "Severe abdominal pain";
         mk_rule Kb.urgent ["chest_pain"] "Chest pain";
         mk_rule Kb.moderate ["fever"; "cough"] "Fever with cough";
         mk_rule Kb.moderate ["headache"; "dizziness"] "Headache with dizziness";
         mk_rule Kb.moderate ["fever"; "body_ache"] "Fever with body ache";
         mk_rule Kb.moderate ["joint_pain"; "swelling"] "Joint pain with swelling";
         mk_rule Kb.moderate ["persistent_vomiting"] "Persistent vomiting";
         mk_rule Kb.low ["headache"] "Headache";
         mk_rule Kb.low ["runny_nose"] "Runny nose";
         mk_rule Kb.low ["sore_throat"] "Sore throat";
         mk_rule Kb.low ["fatigue"] "Fatigue";
         mk_rule Kb.low ["fever"] "Fever";
         mk_rule Kb.low ["cough"] "Cough" ] |}.

(** The deployment the examples run in: [triage.py] in [/app], next to its
    knowledge base, nothing consulted yet. *)
Definition app_platform : Platform := Kb.platform "/app".

Definition installed (cat : Kb.Catalog) : Kb.State :=
  {| Kb.files := [("/app/triage_kb.pl", cat)];
     Kb.loaded := None;
     Kb.working := [] |}.

Definition boot (st : Kb.State) : World app_platform :=
  {| env := (st : Env app_platform); stdout := [] |}.

(** A Prolog process whose breakdown query breaks: as [Kb.answer], except
    that every [fired_rules] goal raises. *)
Definition failing_breakdown (g : goal) (st : Kb.State)
  : outcome (list solution) * Kb.State :=
  match g with
  | fired_rules_goal _ => (Raise (PrologError "fired_rules/2 raised"), st)
  | _ => Kb.answer g st
  end.

Definition app_platform_failing : Platform :=
  {| Env := Kb.State;
     module_dir := "/app";
     path_exists := path_exists app_platform;
     path_resolve := path_resolve app_platform;
     consult := consult app_platform;
     query := failing_breakdown |}.

(** ** Closed forms and specification predicates *)

(** The text [run_interactive] prints when the knowledge base is missing. *)
Definition missing_kb_report (kb_path : string) : list string :=
  [ BANNER;
    color "urgent" +:+ DISCLAIMER +:+ RESET_COLOR;
    "
" +:+ color "critical" +:+ "ERROR: "
      +:+ ("Knowledge base not found: " +:+ kb_path) +:+ RESET_COLOR ].

Definition printed {P : Platform} (w : World P) (lines : list string) : World P :=
  {| env := env w; stdout := (stdout w ++ lines)%list |}.

Definition boot_failing (st : Kb.State) : World app_platform_failing :=
  {| env := (st : Env app_platform_failing); stdout := [] |}.

(** A disk without the knowledge base. *)
Definition bare : Kb.State :=
  {| Kb.files := []; Kb.loaded := None; Kb.working := [] |}.

(** The working set after [for symptom in symptoms: add_symptom(symptom)]
    when every symptom is known. *)
Fixpoint add_all (syms ws : list string) : list string :=
  match syms with
  | [] => ws
  | s :: rest => add_all rest (if decide (s ∈ ws) then ws else ws ++ [s])%list
  end.

(** What [run_triage] and [run_triage_all] return over the knowledge base. *)
Definition triage_answer (cat : Kb.Catalog) (ws : list string)
  : string * list string :=
  match Kb.primary cat ws with
  | (Kb.none, _) => ("none", ["Unable to determine triage level."])
  | (t, exps) => (Kb.tier_name t, exps)
  end.

Definition breakdown_answer (cat : Kb.Catalog) (ws : list string)
  : list (string * list string) :=
  map (fun entry => (Kb.tier_name (fst entry), snd entry)) (Kb.breakdown cat ws).

(** The entry one round of the loop of [run_triage_all] appends. *)
Definition fired_entry (cat : Kb.Catalog) (ws : list string) (level : string)
  : option (string * list string) :=
  match Kb.tier_of_name level with
  | None => None
  | Some t =>
      match Kb.fired_rules cat t ws with
      | [] => None
      | fired => Some (level, map Kb.explanation fired)
      end
  end.

(** The world of a process that has consulted [cat] and holds the working
    set [ws]. *)
Definition engine_world {dir : string} (w : World (Kb.platform dir))
    (cat : Kb.Catalog) (ws : list string) : World (Kb.platform dir) :=
  {| env := ({| Kb.files := Kb.files (env w);
                Kb.loaded := Some cat;
                Kb.working := ws |} : Env (Kb.platform dir));
     stdout := stdout w |}.

(** What [run_triage_for_symptoms] returns over the knowledge base [cat]
    once the working set is [ws]. *)
Definition triage_result (cat : Kb.Catalog) (ws syms : list string)
  : TriageResult :=
  {| level := fst (triage_answer cat ws);
     explanations := snd (triage_answer cat ws);
     all_levels := breakdown_answer cat ws;
     symptoms := syms |}.

(** Tier [t] is reached: a rule of [t] has its condition inside [ws]. *)
Definition reached (cat : Kb.Catalog) (ws : list string) (t : Kb.Tier) : Prop :=
  exists r : Kb.Rule,
    r ∈ Kb.rule_table cat /\ Kb.rule_tier r = t /\ Kb.condition r ⊆ ws.

(** [t] is the highest tier reached, [none] when no tier is. *)
Definition highest_reached (cat : Kb.Catalog) (ws : list string) (t : Kb.Tier)
  : Prop :=
  (t = Kb.none /\ forall t', ~ reached cat ws t')
  \/ (reached cat ws t /\ forall t', reached cat ws t' -> Kb.rank t' <= Kb.rank t).

(** What the specification asks of a breakdown [al] for the working set
    [ws]: its keys follow the fixed order (so [none] is not among them),
    and every entry is a tier with at least one fired rule, with that
    tier's explanations in catalog order. *)
Definition breakdown_ok (cat : Kb.Catalog) (ws : list string)
    (al : list (string * list string)) : Prop :=
  sublist (dict_keys al) ["critical"; "urgent"; "moderate"; "low"]
  /\ ("none" ∉ dict_keys al)
  /\ (forall name exps, (name, exps) ∈ al ->
        exists t, name = Kb.tier_name t /\ reached cat ws t
                  /\ exps = map Kb.explanation (Kb.fired_rules cat t ws))
  /\ (forall t, reached cat ws t -> t <> Kb.none -> Kb.tier_name t ∈ dict_keys al).

(** A process in [/app] that has consulted [cat] and holds [ws]. *)
Definition consulted (cat : Kb.Catalog) (ws : list string) : Kb.State :=
  {| Kb.files := [("/app/triage_kb.pl", cat)];
     Kb.loaded := Some cat;
     Kb.working := ws |}.

(** ** Logging what is sent to Prolog *)

(** One use of the Prolog process. *)
Inductive call : Type :=
| Consult (path : string)
| Query (g : goal).

(** The platform [P] with a log: every [consult] and every query is
    forwarded to [P] and appended to the log, whatever its outcome. *)
Definition traced (P : Platform) : Platform :=
  {| Env := (Env P * list call)%type;
     module_dir := module_dir P;
     path_exists := fun path e => path_exists P path (fst e);
     path_resolve := fun path e => path_resolve P path (fst e);
     consult := fun path e =>
       (fst (consult P path (fst e)),
        (snd (consult P path (fst e)), snd e ++ [Consult path]));
     query := fun g e =>
       (fst (query P g (fst e)),
        (snd (query P g (fst e)), snd e ++ [Query g])) |}.

Definition calls {P : Platform} (w : World (traced P)) : list call :=
  snd (env w : Env P * list call).

Definition underlying {P : Platform} (w : World (traced P)) : Env P :=
  fst (env w : Env P * list call).

(** A world of [traced P] over the environment [e], nothing logged or
    printed yet. *)
Definition fresh_log {P : Platform} (e : Env P) : World (traced P) :=
  {| env := ((e, []) : Env (traced P)); stdout := [] |}.

(** The goals [run_triage_all] sends, in order. *)
Definition breakdown_queries : list call :=
  map (fun lv => Query (fired_rules_goal lv))
      ["critical"; "urgent"; "moderate"; "low"].

(** A Prolog process that is interrupted in the breakdown query: as
    [Kb.answer], except that every [fired_rules] goal raises
    [KeyboardInterrupt]. *)
Definition interrupted_breakdown (g : goal) (st : Kb.State)
  : outcome (list solution) * Kb.State :=
  match g with
  | fired_rules_goal _ => (Raise KeyboardInterrupt, st)
  | _ => Kb.answer g st
  end.

Definition app_platform_interrupted : Platform :=
  {| Env := Kb.State;
     module_dir := "/app";
     path_exists := path_exists app_platform;
     path_resolve := path_resolve app_platform;
     consult := consult app_platform;
     query := interrupted_breakdown |}.

Definition boot_interrupted (st : Kb.State) : World app_platform_interrupted :=
  {| env := (st : Env app_platform_interrupted); stdout := [] |}.

(** [m], run from [w] on a logging platform, logs a prefix [l] of
    [script], and whenever it returns [a], [Q a l] holds. *)
Definition logs {P : Platform} {A : Type} (m : Py (traced P) A)
    (w : World (traced P)) (script : list call)
    (Q : A -> list call -> Prop) : Prop :=
  exists l : list call,
    calls (snd (m w)) = calls w ++ l
    /\ l `prefix_of` script
    /\ (forall a, fst (m w) = Return a -> Q a l).

(** [m] sends [script]: all of it when it returns, a prefix when it
    raises. *)
Definition sends {P : Platform} {A : Type} (m : Py (traced P) A)
    (w : World (traced P)) (script : list call) : Prop :=
  logs m w script (fun _ l => l = script).

(** The calls of [run_triage_for_symptoms], in order, from an environment
    [e]. *)
Definition api_script (P : Platform) (e : Env P) (syms : list string)
  : list call :=
  [ Consult (replace_char "\"%char "/"%char (path_resolve P (KB_PATH P) e));
    Query clear_symptoms_goal ]
  ++ map (fun s => Query (add_symptom_goal s)) syms
  ++ [ Query triage_goal ]
  ++ breakdown_queries.

(** The calls of [run_triage_for_symptoms] up to the evaluation. *)
Definition api_script_evaluated (P : Platform) (e : Env P) (syms : list string)
  : list call :=
  [ Consult (replace_char "\"%char "/"%char (path_resolve P (KB_PATH P) e));
    Query clear_symptoms_goal ]
  ++ map (fun s => Query (add_symptom_goal s)) syms
  ++ [ Query triage_goal ].

(** ** The interactive session *)

(** The built-ins of Python that [run_interactive] applies to text typed
    by the user or returned by Prolog: [str.strip()], [str.lower()],
    [str.upper()] and [int()] ([None] for a [ValueError]).  They are not
    code of the program and are taken as given. *)
Record Builtins : Type := {
  str_strip : string -> string;
  str_lower : string -> string;
  str_upper : string -> string;
  int_of_str : string -> option Z
}.

(** What [input()] meets: a line typed by the user or an interrupt; the
    end of the list is the end of the input ([EOFError]). *)
Inductive keyboard : Type :=
| Line (text : string)
| CtrlC.

(** [s * n] *)
Fixpoint repeat_string (s : string) (n : nat) : string :=
  match n with
  | O => ""
  | S n' => s +:+ repeat_string s n'
  end.

(** [f"{s:>width}"] *)
Definition rjust (width : nat) (s : string) : string :=
  repeat_string " " (width - String.length s) +:+ s.

(** [enumerate(xs, start)] *)
Fixpoint enumerate {A : Type} (start : nat) (xs : list A) : list (nat * A) :=
  match xs with
  | [] => []
  | x :: rest => (start, x) :: enumerate (S start) rest
  end.

(** [s.split(sep)] for a one-character [sep]. *)
Fixpoint split_char (sep : ascii) (s : string) : list string :=
  match s with
  | EmptyString => [EmptyString]
  | String c rest =>
      if Ascii.eqb c sep then EmptyString :: split_char sep rest
      else
        match split_char sep rest with
        | piece :: pieces => String c piece :: pieces
        | [] => [String c EmptyString]
        end
  end.

(** [next((d for s, d in available if s == sym), sym)] *)
Fixpoint describe (available : list (string * string)) (sym : string) : string :=
  match available with
  | [] => sym
  | (s, d) :: rest => if String.eqb s sym then d else describe rest sym
  end.

(** [[s for s, d in available if s == key]] *)
Definition matching (available : list (string * string)) (key : string)
  : list string :=
  map fst (List.filter (fun sd => String.eqb (fst sd) key) available).

(** The dict [actions] of [display_triage_result]. *)
Definition ACTIONS : list (string * string) :=
  [ ("critical", "🚨 Seek IMMEDIATE emergency medical attention. Call emergency services NOW.");
    ("urgent", "⚠️  Seek medical attention as soon as possible (within hours).");
    ("moderate", "🩺 Schedule a medical appointment soon (within 24-48 hours).");
    ("low", "💊 Monitor symptoms. Visit a healthcare provider if they persist or worsen.");
    ("none", "ℹ️  No matching rules. Consider consulting a healthcare provider if concerned.") ].

Definition MENU_PROMPT : string :=
  BOLD +:+ "Enter symptom number(s) (comma-separated) or command: "
  +:+ RESET_COLOR.

Definition AGAIN_PROMPT : string :=
  BOLD +:+ "Run another triage? (y/n): " +:+ RESET_COLOR.

(** What the loop of [run_interactive] hands on after the entries of one
    line: the selection and whether a triage was asked for, or the
    [return] of entry [-2]. *)
Inductive flow : Type :=
| Continue (selected_symptoms : list string) (should_run_triage : bool)
| Quit.

Section Session.

Context (P : Platform) (B : Builtins).

(** [input(prompt)]: the prompt goes to the output, as an entry of its
    own; the line read, or the exception, is the head of the keyboard
    input. *)
Definition write_prompt (prompt : string) : Py P unit := print P prompt.

Definition display_symptom_menu (symptoms : list (string * string)) : Py P unit :=
  print P ("
" +:+ BOLD +:+ "Available Symptoms:" +:+ RESET_COLOR) ;;
  print P (repeat_string "-" 50) ;;
  for_in (enumerate 1 symptoms)
    (fun item =>
       print P ("  " +:+ rjust 2 (pretty (fst item)) +:+ ". "
                +:+ snd (snd item) +:+ " (" +:+ fst (snd item) +:+ ")")) ;;
  print P (repeat_string "-" 50) ;;
  print P ("  " +:+ BOLD +:+ " 0.  Done — Run triage" +:+ RESET_COLOR) ;;
  print P ("  " +:+ BOLD +:+ "-1.  Clear all symptoms" +:+ RESET_COLOR) ;;
  print P ("  " +:+ BOLD +:+ "-2.  Quit" +:+ RESET_COLOR) ;;
  print P "".

(** The block of the lower-priority levels in [display_triage_result]. *)
Definition display_other_levels (level : string)
    (all_levels : list (string * list string)) : Py P unit :=
  print P ("
" +:+ BOLD +:+ "Other matching levels (lower priority):" +:+ RESET_COLOR) ;;
  for_in all_levels
    (fun entry =>
       if String.eqb (fst entry) level then mret tt
       else
         print P ("
  " +:+ color (fst entry) +:+ "[" +:+ str_upper B (fst entry) +:+ "]"
                  +:+ RESET_COLOR) ;;
         for_in (snd entry) (fun exp => print P ("    ▸ " +:+ exp))).

Definition display_triage_result (level : string) (explanations : list string)
    (all_levels : option (list (string * list string))) : Py P unit :=
  print P ("
" +:+ repeat_string "=" 70) ;;
  print P (BOLD +:+ color level +:+ "  TRIAGE RESULT:  " +:+ str_upper B level
           +:+ RESET_COLOR) ;;
  print P (repeat_string "=" 70) ;;
  print P ("
" +:+ BOLD +:+ "Triggered Rules (highest priority — " +:+ str_upper B level
           +:+ "):" +:+ RESET_COLOR) ;;
  for_in (enumerate 1 explanations)
    (fun item =>
       print P ("  " +:+ color level +:+ "▸ Rule " +:+ pretty (fst item) +:+ ":"
                +:+ RESET_COLOR +:+ " " +:+ snd item)) ;;
  match all_levels with
  | Some levels =>
      if (1 <? length levels)%nat then display_other_levels level levels
      else mret tt
  | None => mret tt
  end ;;
  print P ("
" +:+ BOLD +:+ "Recommended Action:" +:+ RESET_COLOR) ;;
  print P ("  " +:+ color level
           +:+ default (default "" (dict_get ACTIONS "none"))
                       (dict_get ACTIONS level)
           +:+ RESET_COLOR) ;;
  print P "".

(** The head of an iteration of the loop: the current selection, when
    there is one. *)
Definition show_selected (available : list (string * string))
    (selected_symptoms : list string) : Py P unit :=
  match selected_symptoms with
  | [] => mret tt
  | _ :: _ =>
      print P ("
" +:+ BOLD +:+ "Currently selected symptoms:" +:+ RESET_COLOR) ;;
      for_in selected_symptoms
        (fun sym =>
           print P ("  ✓ " +:+ describe available sym +:+ " (" +:+ sym +:+ ")"))
  end.

(** [for entry in entries: ...] of [run_interactive], lines 195-231. *)
Fixpoint process_entries (available : list (string * string))
    (entries : list string) (selected_symptoms : list string)
    (should_run_triage : bool) : Py P flow :=
  match entries with
  | [] => mret (Continue selected_symptoms should_run_triage)
  | entry :: rest =>
      match int_of_str B entry with
      | None =>
          match matching available
                  (replace_char " "%char "_"%char (str_lower B entry)) with
          | symptom_id :: _ =>
              if decide (symptom_id ∈ selected_symptoms) then
                process_entries available rest selected_symptoms
                  should_run_triage
              else
                add_symptom P symptom_id ;;
                print P ("  ✓ Added: " +:+ describe available symptom_id) ;;
                process_entries available rest
                  (selected_symptoms ++ [symptom_id]) should_run_triage
          | [] =>
              print P ("  ✗ Unknown input: '" +:+ entry +:+ "'") ;;
              process_entries available rest selected_symptoms
                should_run_triage
          end
      | Some num =>
          if (num =? 0)%Z then
            process_entries available rest selected_symptoms true
          else if (num =? -1)%Z then
            clear_symptoms P ;;
            print P "  ✓ All symptoms cleared." ;;
            process_entries available rest [] should_run_triage
          else if (num =? -2)%Z then
            print P "
Goodbye! Remember: consult a real medical professional.
" ;;
            mret Quit
          else if ((1 <=? num)%Z && (num <=? Z.of_nat (length available))%Z) then
            let item := nth (Z.to_nat (num - 1)) available ("", "") in
            if decide (fst item ∈ selected_symptoms) then
              print P ("  ⓘ Already selected: " +:+ snd item) ;;
              process_entries available rest selected_symptoms
                should_run_triage
            else
              add_symptom P (fst item) ;;
              print P ("  ✓ Added: " +:+ snd item) ;;
              process_entries available rest (selected_symptoms ++ [fst item])
                should_run_triage
          else
            print P ("  ✗ Invalid number: " +:+ pretty num) ;;
            process_entries available rest selected_symptoms should_run_triage
      end
  end.

(** The triage of one assessment, lines 238-246: evaluation, guarded
    breakdown, display. *)
Definition assess : Py P unit :=
  result ← run_triage P;
  all_levels ←
    try_except
      (levels ← run_triage_all P; mret (Some levels))
      (fun e => if is_Exception e then Some (mret None) else None);
  display_triage_result (fst result) (snd result) all_levels ;;
  print_disclaimer P.

(** [while True: ...] of [run_interactive], lines 173-260, on the keyboard
    input [keys]. *)
Fixpoint menu_loop (available : list (string * string)) (keys : list keyboard)
    (selected_symptoms : list string) {struct keys} : Py P unit :=
  show_selected available selected_symptoms ;;
  display_symptom_menu available ;;
  write_prompt MENU_PROMPT ;;
  match keys with
  | [] | CtrlC :: _ => print P "

Goodbye!"
  | Line text :: keys1 =>
      let choice := str_strip B text in
      if String.eqb choice "" then menu_loop available keys1 selected_symptoms
      else
        after ← process_entries available
                  (map (str_strip B) (split_char ","%char choice))
                  selected_symptoms false;
        match after with
        | Quit => mret tt
        | Continue selected false => menu_loop available keys1 selected
        | Continue [] true =>
            print P "
  ⚠ No symptoms selected. Please add at least one symptom." ;;
            menu_loop available keys1 []
        | Continue (_ :: _) true =>
            assess ;;
            write_prompt AGAIN_PROMPT ;;
            match keys1 with
            | [] | CtrlC :: _ => print P "

Goodbye!"
            | Line answer :: keys2 =>
                let again := str_lower B (str_strip B answer) in
                if String.eqb again "y" || String.eqb again "yes" then
                  clear_symptoms P ;;
                  print P "
  ✓ Symptoms cleared for new assessment.
" ;;
                  menu_loop available keys2 []
                else
                  print P "
Goodbye! Remember: consult a real medical professional.
"
            end
        end
  end.

(** [run_interactive] as a whole, on the keyboard input [keys]. *)
Definition interactive_session (keys : list keyboard) : Py P unit :=
  run_interactive P (fun available => menu_loop available keys []).

End Session.

(** The built-ins on ASCII text, for the examples: whitespace is the
    ASCII whitespace, letters are the ASCII letters, a numeral is, between
    optional whitespace, an optional sign followed by decimal digits
    that single underscores may separate. *)
Definition is_space (c : ascii) : bool :=
  let n := nat_of_ascii c in
  ((9 <=? n) && (n <=? 13) || (28 <=? n) && (n <=? 32))%nat.

Fixpoint lstrip (s : string) : string :=
  match s with
  | EmptyString => EmptyString
  | String c rest => if is_space c then lstrip rest else s
  end.

Definition ascii_strip (s : string) : string :=
  String.rev (lstrip (String.rev (lstrip s))).

Definition lower_char (c : ascii) : ascii :=
  let n := nat_of_ascii c in
  if ((65 <=? n) && (n <=? 90))%nat then ascii_of_nat (n + 32) else c.

Definition upper_char (c : ascii) : ascii :=
  let n := nat_of_ascii c in
  if ((97 <=? n) && (n <=? 122))%nat then ascii_of_nat (n - 32) else c.

Fixpoint map_chars (f : ascii -> ascii) (s : string) : string :=
  match s with
  | EmptyString => EmptyString
  | String c rest => String (f c) (map_chars f rest)
  end.

Definition is_digit (c : ascii) : bool :=
  let n := nat_of_ascii c in ((48 <=? n) && (n <=? 57))%nat.

(** The value of digits with underscores: [after_digit] tells whether the
    character before was a digit, the only place for an underscore, which
    a digit must follow. *)
Fixpoint digits_value (s : string) (acc : Z) (after_digit : bool) : option Z :=
  match s with
  | EmptyString => if after_digit then Some acc else None
  | String c rest =>
      if is_digit c then
        digits_value rest (10 * acc + Z.of_nat (nat_of_ascii c - 48))%Z true
      else if Ascii.eqb c "_"%char && after_digit then
        digits_value rest acc false
      else None
  end.

Definition ascii_int (s : string) : option Z :=
  match ascii_strip s with
  | String "-" rest => Z.opp <$> digits_value rest 0 false
  | String "+" rest => digits_value rest 0 false
  | numeral => digits_value numeral 0 false
  end.

Definition ascii_builtins : Builtins :=
  {| str_strip := ascii_strip;
     str_lower := map_chars lower_char;
     str_upper := map_chars upper_char;
     int_of_str := ascii_int |}.

(** What [run_interactive] prints first: banner and disclaimer. *)
Definition greeting : list string :=
  [ BANNER; color "urgent" +:+ DISCLAIMER +:+ RESET_COLOR ].

(** The line [run_interactive] prints for an exception [e] of the engine
    construction. *)
Definition startup_error (e : exn) : string :=
  "
" +:+ color "critical"
  +:+ (if is_FileNotFoundError e then "ERROR: "
       else "ERROR initializing Prolog engine: ")
  +:+ exn_str e +:+ RESET_COLOR.

(** Knowledge bases for the examples: one that fails the integrity check
    (a rule without condition), one without symptoms. *)
Definition malformed_kb : Kb.Catalog :=
  {| Kb.symptom_table := [("fever", "Fever")];
     Kb.rule_table := [mk_rule Kb.low [] "Always"] |}.

Definition empty_kb : Kb.Catalog :=
  {| Kb.symptom_table := []; Kb.rule_table := [] |}.

(** [m], run from [w] on a logging platform, logs calls in [allowed]
    only. *)
Definition only_logs {P : Platform} {A : Type} (m : Py (traced P) A)
    (w : World (traced P)) (allowed : call -> Prop) : Prop :=
  exists l : list call,
    calls (snd (m w)) = calls w ++ l /\ Forall allowed l.

(** The calls the menu loop may make when [available] is on the menu. *)
Definition menu_call (available : list (string * string)) (c : call) : Prop :=
  match c with
  | Query (add_symptom_goal s) => s ∈ map fst available
  | Query clear_symptoms_goal => True
  | Query triage_goal => True
  | Query (fired_rules_goal lv) => lv ∈ ["critical"; "urgent"; "moderate"; "low"]
  | _ => False
  end.

(** The line of the menu for the symptom numbered [i]. *)
Definition menu_item_line (i : nat) (sid desc : string) : string :=
  "  " +:+ rjust 2 (pretty i) +:+ ". " +:+ desc +:+ " (" +:+ sid +:+ ")".

(** The first solution of an evaluation, if there is one, binds [Level]
    and binds [Explanations] to a list. *)
Definition evaluation_readable (sols : list solution) : Prop :=
  match sols with
  | [] => True
  | first :: _ =>
      exists (lv : term) (items : list term),
        dict_get first "Level" = Some lv
        /\ dict_get first "Explanations" = Some (PList items)
  end.

(** Prolog answers: no query raises, and an evaluation can be read. *)
Definition answers (P : Platform) : Prop :=
  forall (g : goal) (e : Env P),
    exists (sols : list solution) (e' : Env P),
      query P g e = (Return sols, e')
      /\ (g = triage_goal -> evaluation_readable sols).

(** A Prolog process in which every goal fails. *)
Definition failing_goals : Platform :=
  {| Env := unit;
     module_dir := "/app";
     path_exists := fun _ _ => true;
     path_resolve := fun path _ => path;
     consult := fun _ e => (Return tt, e);
     query := fun _ e => (Return [], e) |}.

(** [m], run from [w], returns. *)
Definition returns {P : Platform} {A : Type} (m : Py P A) (w : World P) : Prop :=
  exists (a : A) (w' : World P), m w = (Return a, w').


(** A world of the logging platform without its log. *)
Definition erase {P : Platform} (w : World (traced P)) : World P :=
  {| env := underlying w; stdout := stdout w |}.

(** [mT], on the logging platform, does what [mP] does on [P]: same
    outcome, same world once the log is erased. *)
Definition mirrors {P : Platform} {A : Type}
    (mT : Py (traced P) A) (mP : Py P A) : Prop :=
  forall w : World (traced P),
    fst (mT w) = fst (mP (erase w)) /\ erase (snd (mT w)) = snd (mP (erase w)).




(** The path [TriageEngine.__init__] hands to [consult]. *)
Definition consulted_path (P : Platform) (kb_path : string) (e : Env P)
  : string :=
  replace_char "\"%char "/"%char (path_resolve P kb_path e).

(** The fired-rules queries for the levels [levels], in order. *)
Definition level_queries (levels : list string) : list call :=
  map (fun lv => Query (fired_rules_goal lv)) levels.


(** * Properties *)

(** ** The monad *)

Section Monad_facts.

Context {P : Platform}.

Lemma bind_run {A B : Type} (m : Py P A) (f : A -> Py P B) (w : World P) :
  (m ≫= f) w =
  match m w with
  | (Return a, w') => f a w'
  | (Raise e, w') => (Raise e, w')
  end.
Proof. reflexivity. Qed.

Lemma bind_returns {A B : Type} (m : Py P A) (f : A -> Py P B) w a w' :
  m w = (Return a, w') -> (m ≫= f) w = f a w'.
Proof. intros Hm. rewrite bind_run, Hm. reflexivity. Qed.

Lemma bind_raises {A B : Type} (m : Py P A) (f : A -> Py P B) w e w' :
  m w = (Raise e, w') -> (m ≫= f) w = (Raise e, w').
Proof. intros Hm. rewrite bind_run, Hm. reflexivity. Qed.

Lemma try_except_returns {A : Type} (body : Py P A) handler w a w' :
  body w = (Return a, w') -> try_except body handler w = (Return a, w').
Proof. intros Hb. unfold try_except. rewrite Hb. reflexivity. Qed.

Lemma try_except_caught {A : Type} (body : Py P A) handler w e w' h :
  body w = (Raise e, w') -> handler e = Some h ->
  try_except body handler w = h w'.
Proof. intros Hb Hh. unfold try_except. rewrite Hb, Hh. reflexivity. Qed.

End Monad_facts.

(** ** Start-up without a knowledge base (any platform) *)

Section Startup.

Context (P : Platform).

Lemma init_missing_file (kb_path : string) (w : World P) :
  path_exists P kb_path (env w) = false ->
  TriageEngine_init P kb_path w =
  (Raise (FileNotFoundError ("Knowledge base not found: " +:+ kb_path)), w).
Proof.
  intros Hmissing. destruct w as [e out]. simpl in Hmissing.
  unfold TriageEngine_init. rewrite bind_run. unfold on_env at 1. simpl.
  rewrite bind_run. unfold on_env at 1. simpl. rewrite Hmissing. reflexivity.
Qed.

End Startup.

Lemma print_run (P : Platform) (text : string) (w : World P) :
  print P text w = (Return tt, printed w [text]).
Proof. reflexivity. Qed.

Lemma printed_printed (P : Platform) (w : World P) (xs ys : list string) :
  printed (printed w xs) ys = printed w (xs ++ ys).
Proof. unfold printed. simpl. rewrite <- (assoc_L (++)). reflexivity. Qed.

(** C7.  When the knowledge-base file does not exist, constructing a
    [TriageEngine] raises [FileNotFoundError] and leaves the environment
    as it was, whatever the platform's [consult] would have done; and
    [run_interactive] prints banner, disclaimer and the error and ends in
    [sys.exit(1)], a non-zero status, without reaching the menu loop. *)
Theorem missing_knowledge_base_is_fatal
    (P : Platform) (menu_loop : list (string * string) -> Py P unit)
    (w : World P) :
  path_exists P (KB_PATH P) (env w) = false ->
  TriageEngine_init P (KB_PATH P) w =
    (Raise (FileNotFoundError ("Knowledge base not found: " +:+ KB_PATH P)), w)
  /\ exists code : Z,
       run_interactive P menu_loop w =
         (Raise (SystemExit code), printed w (missing_kb_report (KB_PATH P)))
       /\ code <> 0%Z.
Proof.
  intros Hmissing. split; [ apply init_missing_file; exact Hmissing | ].
  exists 1%Z. split; [ | discriminate ].
  unfold run_interactive, print_banner, print_disclaimer.
  rewrite (bind_returns _ _ _ _ _ (print_run P _ w)).
  rewrite (bind_returns _ _ _ _ _ (print_run P _ _)).
  rewrite printed_printed.
  rewrite bind_run.
  erewrite try_except_caught;
    [ | apply init_missing_file; exact Hmissing | reflexivity ].
  rewrite (bind_returns _ _ _ _ _ (print_run P _ _)).
  rewrite printed_printed. reflexivity.
Qed.

Lemma missing_knowledge_base_is_fatal_witness :
  TriageEngine_init app_platform (KB_PATH app_platform) (boot bare) =
    (Raise (FileNotFoundError
              ("Knowledge base not found: " +:+ KB_PATH app_platform)),
     boot bare)
  /\ exists code : Z,
       run_interactive app_platform (fun _ => mret tt) (boot bare) =
         (Raise (SystemExit code),
          printed (boot bare) (missing_kb_report (KB_PATH app_platform)))
       /\ code <> 0%Z.
Proof.
  apply (missing_knowledge_base_is_fatal app_platform (fun _ => mret tt)
           (boot bare)).
  reflexivity.
Defined.

(** ** A failing breakdown query (any platform) *)

Section Swallowed.

Context (P : Platform).

Lemma run_triage_for_symptoms_swallows
    (syms : list string) (w w1 w2 : World P)
    (lvl : string) (exps : list string) (e : exn) :
  (TriageEngine_init P (KB_PATH P) ;;
   for_in syms (add_symptom P) ;;
   run_triage P) w = (Return (lvl, exps), w1) ->
  run_triage_all P w1 = (Raise e, w2) ->
  is_Exception e = true ->
  run_triage_for_symptoms P syms w =
    (Return {| level := lvl; explanations := exps;
               all_levels := []; symptoms := syms |}, w2).
Proof.
  intros Heval Hall Hexc. unfold run_triage_for_symptoms.
  rewrite bind_run in Heval. rewrite bind_run.
  destruct (TriageEngine_init P (KB_PATH P) w) as [[[]|e0] wa]; [ | discriminate ].
  cbv beta in Heval |- *. rewrite bind_run in Heval. rewrite bind_run.
  destruct (for_in syms (add_symptom P) wa) as [[[]|e1] wb]; [ | discriminate ].
  cbv beta in Heval |- *. rewrite bind_run, Heval. cbv beta iota.
  rewrite bind_run.
  rewrite (try_except_caught _ _ w1 e w2 (mret []));
    [ reflexivity | apply bind_raises; exact Hall | rewrite Hexc; reflexivity ].
Qed.

End Swallowed.

(** ** The keys of the breakdown (any platform) *)

Lemma run_triage_all_from_keys (P : Platform) (levels : list string)
    (acc al : list (string * list string)) (w w' : World P) :
  run_triage_all_from P levels acc w = (Return al, w') ->
  exists added : list (string * list string),
    al = acc ++ added /\ sublist (dict_keys added) levels.
Proof.
  revert acc w. induction levels as [|lv levels IH]; intros acc w Hrun.
  - injection Hrun as <- <-. exists []. split.
    + rewrite (right_id_L [] (++)). reflexivity.
    + apply sublist_nil.
  - simpl in Hrun. rewrite bind_run in Hrun.
    destruct (prolog_query P (fired_rules_goal lv) w) as [[results|e] w1];
      [ | discriminate ].
    destruct results as [|first rest]; cbv beta iota in Hrun.
    + destruct (IH _ _ Hrun) as (added & -> & Hsub).
      exists added. split; [ reflexivity | apply sublist_cons; exact Hsub ].
    + rewrite bind_run in Hrun. unfold subscript in Hrun.
      destruct (dict_get first "Explanations") as [t|];
        cbv [mret Py_ret raise] in Hrun; [ | discriminate ].
      rewrite bind_run in Hrun.
      assert (Hitems : exists items, iterate P t w1 = (Return items, w1)).
      { destruct t; eexists; reflexivity. }
      destruct Hitems as (items & Hitems). rewrite Hitems in Hrun.
      destruct (IH _ _ Hrun) as (added & -> & Hsub).
      exists ((lv, map str items) :: added). split.
      * rewrite <- (assoc_L (++)). reflexivity.
      * simpl. apply sublist_skip. exact Hsub.
Qed.

Lemma run_triage_all_keys (P : Platform)
    (al : list (string * list string)) (w w' : World P) :
  run_triage_all P w = (Return al, w') ->
  sublist (dict_keys al) ["critical"; "urgent"; "moderate"; "low"].
Proof.
  intros Hrun. apply run_triage_all_from_keys in Hrun as (added & -> & Hsub).
  exact Hsub.
Qed.

(** ** The knowledge base: rules and tiers *)

Lemma map_str_Atom (l : list string) : map str (map Atom l) = l.
Proof. induction l as [|x l IH]; simpl; [ | rewrite IH ]; reflexivity. Qed.

Lemma replace_char_idem (a b : ascii) (s : string) :
  a <> b -> replace_char a b (replace_char a b s) = replace_char a b s.
Proof.
  intros Hab. induction s as [|c s IH]; simpl; [ reflexivity | ].
  rewrite IH. f_equal.
  destruct (Ascii.eqb_spec c a) as [->|Hca].
  - destruct (Ascii.eqb_spec b a); congruence.
  - destruct (Ascii.eqb_spec c a); congruence.
Qed.

Lemma fired_rules_spec (cat : Kb.Catalog) (t : Kb.Tier) (ws : list string)
    (r : Kb.Rule) :
  r ∈ Kb.fired_rules cat t ws <->
  r ∈ Kb.rule_table cat /\ Kb.rule_tier r = t /\ Kb.condition r ⊆ ws.
Proof.
  unfold Kb.fired_rules, Kb.rules_for_tier, Kb.fires.
  rewrite !list_elem_of_filter. tauto.
Qed.

Lemma reached_fired (cat : Kb.Catalog) (ws : list string) (t : Kb.Tier) :
  reached cat ws t <-> Kb.fired_rules cat t ws <> [].
Proof.
  unfold reached. split.
  - intros (r & Hr). apply fired_rules_spec in Hr.
    eapply elem_of_not_nil, Hr.
  - intros Hne. destruct (Kb.fired_rules cat t ws) as [|r l] eqn:E; [ done | ].
    exists r. apply fired_rules_spec. rewrite E. left.
Qed.

Lemma fired_rules_same_elements (cat : Kb.Catalog) (t : Kb.Tier)
    (ws ws' : list string) :
  (forall x, x ∈ ws <-> x ∈ ws') ->
  Kb.fired_rules cat t ws = Kb.fired_rules cat t ws'.
Proof.
  intros Hsame. unfold Kb.fired_rules. apply list_filter_iff.
  intros r. unfold Kb.fires. split; intros Hsub x Hx; apply Hsame, Hsub, Hx.
Qed.

Lemma well_formed_rules (cat : Kb.Catalog) (r : Kb.Rule) :
  Kb.well_formed cat = true -> r ∈ Kb.rule_table cat ->
  Kb.condition r <> [] /\ Kb.rule_tier r <> Kb.none.
Proof.
  unfold Kb.well_formed. intros Hwf Hr.
  apply andb_prop in Hwf as [_ Hrules].
  rewrite forallb_forall in Hrules.
  specialize (Hrules r (proj1 (list_elem_of_In _ _) Hr)).
  unfold Kb.rule_ok in Hrules. apply andb_prop in Hrules as [Hc Ht].
  apply bool_decide_eq_true in Hc, Ht. done.
Qed.

Lemma none_not_reached (cat : Kb.Catalog) (ws : list string) :
  Kb.well_formed cat = true -> ~ reached cat ws Kb.none.
Proof.
  intros Hwf (r & Hr & Ht & _).
  destruct (well_formed_rules cat r Hwf Hr) as [_ Hne]. done.
Qed.

Lemma breakdown_spec (cat : Kb.Catalog) (ws : list string)
    (t : Kb.Tier) (exps : list string) :
  (t, exps) ∈ Kb.breakdown cat ws <->
  t ∈ Kb.rule_tiers /\ Kb.fired_rules cat t ws <> []
  /\ exps = map Kb.explanation (Kb.fired_rules cat t ws).
Proof.
  unfold Kb.breakdown. rewrite list_elem_of_omap. split.
  - intros (t' & Ht' & Hsome).
    destruct (Kb.fired_rules cat t' ws) as [|r l] eqn:E; [ discriminate | ].
    injection Hsome as <- <-. rewrite E. done.
  - intros (Ht & Hne & ->). exists t. split; [ exact Ht | ].
    destruct (Kb.fired_rules cat t ws); done.
Qed.

Lemma breakdown_keys_sublist (cat : Kb.Catalog) (ws : list string) :
  sublist (map fst (Kb.breakdown cat ws)) Kb.rule_tiers.
Proof.
  unfold Kb.breakdown, Kb.rule_tiers. simpl.
  destruct (Kb.fired_rules cat Kb.critical ws),
           (Kb.fired_rules cat Kb.urgent ws),
           (Kb.fired_rules cat Kb.moderate ws),
           (Kb.fired_rules cat Kb.low ws); simpl;
    repeat first [ apply sublist_nil | apply sublist_skip | apply sublist_cons ].
Qed.

Lemma breakdown_answer_keys (cat : Kb.Catalog) (ws : list string) :
  dict_keys (breakdown_answer cat ws) =
  map Kb.tier_name (map fst (Kb.breakdown cat ws)).
Proof.
  unfold dict_keys, breakdown_answer. rewrite !map_map. reflexivity.
Qed.

Ltac reached_cases Hwf :=
  match goal with
  | H : reached _ _ Kb.none |- _ => destruct (none_not_reached _ _ Hwf H)
  | H : reached _ _ _ |- _ =>
      apply reached_fired in H;
      match type of H with ?l <> _ => try (simpl; lia); congruence end
  end.

Lemma primary_highest (cat : Kb.Catalog) (ws : list string) :
  Kb.well_formed cat = true ->
  highest_reached cat ws (fst (Kb.primary cat ws)).
Proof.
  intros Hwf. unfold highest_reached, Kb.primary, Kb.breakdown, Kb.rule_tiers.
  simpl.
  destruct (Kb.fired_rules cat Kb.critical ws) eqn:Ec.
  2: { simpl. right. split; [ apply reached_fired; congruence | ].
       intros []; simpl; lia. }
  destruct (Kb.fired_rules cat Kb.urgent ws) eqn:Eu.
  2: { simpl. right. split; [ apply reached_fired; congruence | ].
       intros [] Hr; simpl; try lia; reached_cases Hwf. }
  destruct (Kb.fired_rules cat Kb.moderate ws) eqn:Em.
  2: { simpl. right. split; [ apply reached_fired; congruence | ].
       intros [] Hr; simpl; try lia; reached_cases Hwf. }
  destruct (Kb.fired_rules cat Kb.low ws) eqn:El.
  2: { simpl. right. split; [ apply reached_fired; congruence | ].
       intros [] Hr; simpl; try lia; reached_cases Hwf. }
  left. split; [ reflexivity | ]. intros [] Hr; reached_cases Hwf.
Qed.

Lemma primary_tier_named (cat : Kb.Catalog) (ws : list string) :
  fst (triage_answer cat ws) = Kb.tier_name (fst (Kb.primary cat ws)).
Proof.
  unfold triage_answer. destruct (Kb.primary cat ws) as [[] exps]; reflexivity.
Qed.

Lemma sublist_map {A B : Type} (f : A -> B) (l k : list A) :
  sublist l k -> sublist (map f l) (map f k).
Proof.
  induction 1; simpl;
    [ apply sublist_nil | apply sublist_skip | apply sublist_cons ]; assumption.
Qed.

Lemma breakdown_answer_keys_sublist (cat : Kb.Catalog) (ws : list string) :
  sublist (dict_keys (breakdown_answer cat ws))
          ["critical"; "urgent"; "moderate"; "low"].
Proof.
  rewrite breakdown_answer_keys.
  apply (sublist_map Kb.tier_name _ Kb.rule_tiers), breakdown_keys_sublist.
Qed.

Lemma dict_set_fresh {V : Type} (d : list (string * V)) (key : string) (v : V) :
  key ∉ dict_keys d -> dict_set d key v = (d ++ [(key, v)])%list.
Proof.
  induction d as [|[k v0] d IH]; simpl; intros Hfresh; [ reflexivity | ].
  apply not_elem_of_cons in Hfresh as [Hne Hfresh].
  destruct (String.eqb_spec k key) as [->|_]; [ done | ].
  rewrite (IH Hfresh). reflexivity.
Qed.

Lemma dict_of_pairs_from {V : Type} (pairs acc : list (string * V)) :
  NoDup (dict_keys (acc ++ pairs)) ->
  fold_left (fun d kv => dict_set d (fst kv) (snd kv)) pairs acc
  = (acc ++ pairs)%list.
Proof.
  revert acc. induction pairs as [|[k v] pairs IH]; intros acc Hnd; simpl.
  - rewrite (right_id_L [] (++)). reflexivity.
  - assert (Hfresh : k ∉ dict_keys acc).
    { unfold dict_keys in *. rewrite map_app in Hnd. simpl in Hnd.
      apply NoDup_app in Hnd as (_ & Hdisj & _).
      intros Hin. apply (Hdisj k Hin). left. }
    rewrite (dict_set_fresh acc k v Hfresh), IH.
    + rewrite <- (assoc_L (++)). reflexivity.
    + rewrite <- (assoc_L (++)). exact Hnd.
Qed.

Lemma dict_of_pairs_distinct {V : Type} (pairs : list (string * V)) :
  NoDup (dict_keys pairs) -> dict_of_pairs pairs = pairs.
Proof. intros Hnd. apply (dict_of_pairs_from pairs []). exact Hnd. Qed.

Lemma breakdown_answer_dict (cat : Kb.Catalog) (ws : list string) :
  dict_of_pairs (breakdown_answer cat ws) = breakdown_answer cat ws.
Proof.
  apply dict_of_pairs_distinct.
  eapply sublist_NoDup; [ | apply breakdown_answer_keys_sublist ].
  compute_done.
Qed.

Lemma add_all_elements (syms ws : list string) (x : string) :
  x ∈ add_all syms ws <-> x ∈ syms \/ x ∈ ws.
Proof.
  revert ws. induction syms as [|s syms IH]; intros ws; simpl.
  - rewrite elem_of_nil. tauto.
  - rewrite IH, elem_of_cons. destruct (decide (s ∈ ws)) as [Hin|Hout].
    + split; [ tauto | ]. intros [[->|?]|?]; tauto.
    + rewrite elem_of_app, list_elem_of_singleton. tauto.
Qed.

Lemma add_all_NoDup (syms ws : list string) :
  NoDup ws -> NoDup (add_all syms ws).
Proof.
  revert ws. induction syms as [|s syms IH]; intros ws Hnd; simpl; [ done | ].
  apply IH. destruct (decide (s ∈ ws)) as [Hin|Hout]; [ done | ].
  apply NoDup_app. split; [ done | ]. split; [ | apply NoDup_singleton ].
  intros x Hx ->%list_elem_of_singleton. done.
Qed.

Lemma reached_same_elements (cat : Kb.Catalog) (ws ws' : list string)
    (t : Kb.Tier) :
  (forall x, x ∈ ws <-> x ∈ ws') -> reached cat ws t <-> reached cat ws' t.
Proof.
  intros Hsame. rewrite !reached_fired.
  rewrite (fired_rules_same_elements cat t ws ws' Hsame). reflexivity.
Qed.

Lemma highest_reached_same_elements (cat : Kb.Catalog) (ws ws' : list string)
    (t : Kb.Tier) :
  (forall x, x ∈ ws <-> x ∈ ws') ->
  highest_reached cat ws t -> highest_reached cat ws' t.
Proof.
  intros Hsame [[-> Hnone]|[Hreached Hmax]]; [ left | right ]; split.
  - reflexivity.
  - intros t' Ht'. apply (Hnone t').
    apply (reached_same_elements cat ws ws' t' Hsame). exact Ht'.
  - apply (reached_same_elements cat ws ws' t Hsame). exact Hreached.
  - intros t' Ht'. apply Hmax.
    apply (reached_same_elements cat ws ws' t' Hsame). exact Ht'.
Qed.

Lemma rank_inj (t t' : Kb.Tier) : Kb.rank t = Kb.rank t' -> t = t'.
Proof. destruct t, t'; simpl; intros H; congruence. Qed.

Lemma highest_reached_unique (cat : Kb.Catalog) (ws : list string)
    (t t' : Kb.Tier) :
  Kb.well_formed cat = true ->
  highest_reached cat ws t -> highest_reached cat ws t' -> t = t'.
Proof.
  intros Hwf [[-> Hnone]|[Hr Hmax]] [[-> Hnone']|[Hr' Hmax']].
  - reflexivity.
  - destruct (Hnone t' Hr').
  - destruct (Hnone' t Hr).
  - apply rank_inj. specialize (Hmax t' Hr'). specialize (Hmax' t Hr). lia.
Qed.

Lemma add_all_nil_elements (syms : list string) (x : string) :
  x ∈ add_all syms [] <-> x ∈ syms.
Proof. rewrite add_all_elements, elem_of_nil. tauto. Qed.

Lemma breakdown_answer_ok (cat : Kb.Catalog) (ws : list string) :
  breakdown_ok cat ws (breakdown_answer cat ws).
Proof.
  pose proof (breakdown_answer_keys_sublist cat ws) as Hsub.
  split; [ exact Hsub | ]. split; [ | split ].
  - intros Hnone. apply (elem_of_sublist _ _ _ Hnone) in Hsub.
    revert Hsub. rewrite !elem_of_cons, elem_of_nil.
    intros [|[|[|[|[]]]]]; discriminate.
  - intros name exps Hin. unfold breakdown_answer in Hin.
    apply list_elem_of_In, in_map_iff in Hin as ([t exps'] & Heq & Hin).
    simpl in Heq. injection Heq as <- <-.
    apply list_elem_of_In, breakdown_spec in Hin as (_ & Hne & ->).
    exists t. split; [ reflexivity | ]. split; [ | reflexivity ].
    apply reached_fired. exact Hne.
  - intros t Hreached Hnot_none.
    rewrite breakdown_answer_keys. apply list_elem_of_In, in_map.
    apply in_map_iff.
    exists (t, map Kb.explanation (Kb.fired_rules cat t ws)).
    split; [ reflexivity | ]. apply list_elem_of_In, breakdown_spec.
    split; [ | split; [ apply reached_fired; exact Hreached | reflexivity ] ].
    unfold Kb.rule_tiers. destruct t; [ | | | | done ];
      rewrite !elem_of_cons; tauto.
Qed.

Lemma breakdown_ok_same_elements (cat : Kb.Catalog) (ws ws' : list string)
    (al : list (string * list string)) :
  (forall x, x ∈ ws <-> x ∈ ws') -> breakdown_ok cat ws al -> breakdown_ok cat ws' al.
Proof.
  intros Hsame (Hsub & Hnone & Hentries & Hall).
  split; [ exact Hsub | ]. split; [ exact Hnone | ]. split.
  - intros name exps Hin. destruct (Hentries name exps Hin) as (t & -> & Hr & ->).
    exists t. split; [ reflexivity | ]. split.
    + apply (reached_same_elements cat ws ws' t Hsame). exact Hr.
    + rewrite (fired_rules_same_elements cat t ws ws' Hsame). reflexivity.
  - intros t Hr. apply Hall.
    apply (reached_same_elements cat ws ws' t Hsame). exact Hr.
Qed.

Lemma no_rule_fires_answer (cat : Kb.Catalog) (ws : list string) :
  (forall r, r ∈ Kb.rule_table cat -> ~ Kb.fires ws r) ->
  triage_answer cat ws = ("none", ["Unable to determine triage level."]).
Proof.
  intros Hnone.
  assert (Hempty : forall t, Kb.fired_rules cat t ws = []).
  { intros t. destruct (Kb.fired_rules cat t ws) as [|r l] eqn:E; [ done | ].
    assert (Hr : r ∈ Kb.fired_rules cat t ws) by (rewrite E; left).
    apply fired_rules_spec in Hr as (Hin & _ & Hsub).
    destruct (Hnone r Hin Hsub). }
  unfold triage_answer, Kb.primary, Kb.breakdown, Kb.rule_tiers. simpl.
  rewrite !Hempty. reflexivity.
Qed.

Lemma nothing_fires_on_empty (cat : Kb.Catalog) (r : Kb.Rule) :
  Kb.well_formed cat = true -> r ∈ Kb.rule_table cat -> ~ Kb.fires [] r.
Proof.
  intros Hwf Hin Hsub. destruct (well_formed_rules cat r Hwf Hin) as [Hne _].
  unfold Kb.fires in Hsub. destruct (Kb.condition r) as [|x l]; [ done | ].
  specialize (Hsub x). rewrite elem_of_nil in Hsub. apply Hsub. left.
Qed.

(** ** [triage.py] over the knowledge base *)

Section Over_kb.

Context (dir : string).

Local Abbreviation P := (Kb.platform dir).

Ltac py_eval :=
  cbv [mbind mret Py_bind Py_ret subscript iterate raise dict_get
       String.eqb Ascii.eqb Bool.eqb fst snd].

Lemma world_eta (w : World P) : {| env := env w; stdout := stdout w |} = w.
Proof. destruct w; reflexivity. Qed.

Lemma engine_world_id (w : World P) (cat : Kb.Catalog) :
  Kb.loaded (env w) = Some cat ->
  engine_world w cat (Kb.working (env w)) = w.
Proof.
  destruct w as [[fs ld ws] out]. simpl. intros ->. reflexivity.
Qed.

Lemma query_kb (g : goal) (w : World P) :
  prolog_query P g w =
  (fst (Kb.answer g (env w)),
   Build_World P (snd (Kb.answer g (env w))) (stdout w)).
Proof.
  unfold prolog_query, on_env. simpl.
  destruct (Kb.answer g (env w)); reflexivity.
Qed.

Lemma run_triage_kb (w : World P) (cat : Kb.Catalog) :
  Kb.loaded (env w) = Some cat ->
  run_triage P w = (Return (triage_answer cat (Kb.working (env w))), w).
Proof.
  intros Hloaded. unfold run_triage. rewrite bind_run, query_kb.
  unfold Kb.answer, triage_answer. rewrite Hloaded.
  destruct (Kb.primary cat (Kb.working (env w))) as [[] exps]; py_eval;
    rewrite ?map_str_Atom, world_eta; reflexivity.
Qed.

Lemma run_triage_all_from_kb (levels : list string)
    (acc : list (string * list string)) (w : World P) (cat : Kb.Catalog) :
  Kb.loaded (env w) = Some cat ->
  run_triage_all_from P levels acc w =
  (Return (acc ++ omap (fired_entry cat (Kb.working (env w))) levels)%list, w).
Proof.
  intros Hloaded. revert acc.
  induction levels as [|lv levels IH]; intros acc; simpl.
  - rewrite (right_id_L [] (++)). reflexivity.
  - rewrite bind_run, query_kb. unfold Kb.answer, fired_entry.
    rewrite Hloaded. simpl.
    destruct (Kb.tier_of_name lv) as [t|]; simpl;
      [ | rewrite world_eta; apply IH ].
    destruct (Kb.fired_rules cat t (Kb.working (env w))) as [|r l]; simpl;
      [ rewrite world_eta; apply IH | ].
    py_eval. rewrite world_eta, IH, <- (assoc_L (++)). simpl.
    rewrite map_str_Atom. reflexivity.
Qed.

Lemma run_triage_all_kb (w : World P) (cat : Kb.Catalog) :
  Kb.loaded (env w) = Some cat ->
  run_triage_all P w = (Return (breakdown_answer cat (Kb.working (env w))), w).
Proof.
  intros Hloaded. unfold run_triage_all.
  rewrite (run_triage_all_from_kb _ _ _ cat Hloaded).
  unfold breakdown_answer, Kb.breakdown, Kb.rule_tiers, fired_entry. simpl.
  destruct (Kb.fired_rules cat Kb.critical (Kb.working (env w))) as [|r1 l1],
           (Kb.fired_rules cat Kb.urgent (Kb.working (env w))) as [|r2 l2],
           (Kb.fired_rules cat Kb.moderate (Kb.working (env w))) as [|r3 l3],
           (Kb.fired_rules cat Kb.low (Kb.working (env w))) as [|r4 l4];
    reflexivity.
Qed.

Lemma add_symptom_kb (w : World P) (cat : Kb.Catalog) (id : string) :
  Kb.loaded (env w) = Some cat ->
  add_symptom P id w =
  match Kb.add_symptom cat id (Kb.working (env w)) with
  | Return ws => (Return tt, engine_world w cat ws)
  | Raise e => (Raise e, w)
  end.
Proof.
  intros Hloaded. unfold add_symptom. rewrite bind_run, query_kb.
  unfold Kb.answer. rewrite Hloaded.
  destruct (Kb.add_symptom cat id (Kb.working (env w))) as [ws|e]; simpl.
  - unfold engine_world, Kb.with_working. rewrite Hloaded. reflexivity.
  - rewrite world_eta. reflexivity.
Qed.

Lemma add_symptom_known (w : World P) (cat : Kb.Catalog) (id : string) :
  Kb.loaded (env w) = Some cat -> id ∈ Kb.vocabulary cat ->
  add_symptom P id w = (Return tt, engine_world w cat (add_all [id] (Kb.working (env w)))).
Proof.
  intros Hloaded Hknown. rewrite (add_symptom_kb w cat id Hloaded).
  unfold Kb.add_symptom. simpl.
  destruct (decide (id ∈ Kb.vocabulary cat)); [ | done ].
  destruct (decide (id ∈ Kb.working (env w))); reflexivity.
Qed.

Lemma add_symptom_unknown (w : World P) (cat : Kb.Catalog) (id : string) :
  Kb.loaded (env w) = Some cat -> id ∉ Kb.vocabulary cat ->
  add_symptom P id w = (Raise (UnknownSymptomError id), w).
Proof.
  intros Hloaded Hunknown. rewrite (add_symptom_kb w cat id Hloaded).
  unfold Kb.add_symptom.
  destruct (decide (id ∈ Kb.vocabulary cat)); [ done | reflexivity ].
Qed.

Lemma engine_world_again (w : World P) (cat : Kb.Catalog) (ws ws' : list string) :
  engine_world (engine_world w cat ws) cat ws' = engine_world w cat ws'.
Proof. reflexivity. Qed.

Lemma for_in_add_kb (syms : list string) (w : World P) (cat : Kb.Catalog) :
  Kb.loaded (env w) = Some cat -> syms ⊆ Kb.vocabulary cat ->
  for_in syms (add_symptom P) w =
  (Return tt, engine_world w cat (add_all syms (Kb.working (env w)))).
Proof.
  revert w. induction syms as [|s syms IH]; intros w Hloaded Hknown; simpl.
  - rewrite (engine_world_id w cat Hloaded). reflexivity.
  - rewrite bind_run, (add_symptom_known w cat s Hloaded).
    + rewrite IH; [ reflexivity | reflexivity | ].
      intros x Hx. apply Hknown. right. exact Hx.
    + apply Hknown. left.
Qed.

Lemma remove_symptom_kb (w : World P) (cat : Kb.Catalog) (id : string) :
  Kb.loaded (env w) = Some cat ->
  remove_symptom P id w =
  (Return tt, engine_world w cat (Kb.remove_symptom id (Kb.working (env w)))).
Proof.
  intros Hloaded. unfold remove_symptom. rewrite bind_run, query_kb.
  unfold Kb.answer. rewrite Hloaded. simpl.
  unfold engine_world, Kb.with_working. rewrite Hloaded. reflexivity.
Qed.

Lemma get_current_symptoms_kb (w : World P) (cat : Kb.Catalog) :
  Kb.loaded (env w) = Some cat ->
  get_current_symptoms P w = (Return (Kb.working (env w)), w).
Proof.
  intros Hloaded. unfold get_current_symptoms. rewrite bind_run, query_kb.
  unfold Kb.answer. rewrite Hloaded. py_eval.
  unfold Kb.current_symptoms. rewrite map_str_Atom, world_eta. reflexivity.
Qed.

Lemma init_kb (w : World P) (cat : Kb.Catalog) :
  Kb.read_file (KB_PATH P) (env w) = Some cat ->
  Kb.well_formed cat = true ->
  TriageEngine_init P (KB_PATH P) w = (Return tt, engine_world w cat []).
Proof.
  intros Hfile Hwf. unfold TriageEngine_init.
  rewrite bind_run. unfold on_env at 1. simpl.
  rewrite bind_run. unfold on_env at 1. simpl.
  rewrite Hfile. simpl.
  rewrite bind_run. unfold on_env at 1. simpl.
  unfold Kb.consult_file, Kb.read_file.
  rewrite replace_char_idem by discriminate.
  unfold Kb.read_file in Hfile. rewrite Hfile.
  unfold Kb.load. rewrite Hwf.
  rewrite bind_run, query_kb. reflexivity.
Qed.

(** A constructed engine has a well-formed catalog loaded and an empty
    working set. *)
Lemma init_establishes (kb_path : string) (w w' : World P) :
  TriageEngine_init P kb_path w = (Return tt, w') ->
  exists cat : Kb.Catalog,
    Kb.loaded (env w') = Some cat /\ Kb.well_formed cat = true
    /\ Kb.working (env w') = [].
Proof.
  unfold TriageEngine_init. rewrite bind_run. unfold on_env at 1. simpl.
  rewrite bind_run. unfold on_env at 1. simpl.
  destruct (bool_decide (is_Some (Kb.read_file kb_path (env w)))); simpl;
    [ | discriminate ].
  rewrite bind_run. unfold on_env at 1. simpl. unfold Kb.consult_file.
  destruct (Kb.read_file _ (env w)) as [cat|]; [ | discriminate ].
  unfold Kb.load. destruct (Kb.well_formed cat) eqn:Hwf; [ | discriminate ].
  rewrite bind_run, query_kb. simpl. intros [= <-].
  exists cat. simpl. done.
Qed.

Lemma run_triage_for_symptoms_kb
    (syms : list string) (w : World P) (cat : Kb.Catalog) :
  Kb.read_file (KB_PATH P) (env w) = Some cat ->
  Kb.well_formed cat = true ->
  syms ⊆ Kb.vocabulary cat ->
  run_triage_for_symptoms P syms w =
  (Return (triage_result cat (add_all syms []) syms),
   engine_world w cat (add_all syms [])).
Proof.
  intros Hfile Hwf Hknown. unfold run_triage_for_symptoms.
  rewrite bind_run, (init_kb w cat Hfile Hwf).
  rewrite bind_run, (for_in_add_kb syms (engine_world w cat []) cat eq_refl Hknown).
  rewrite engine_world_again. simpl Kb.working.
  set (ws := add_all syms []).
  rewrite bind_run, (run_triage_kb (engine_world w cat ws) cat eq_refl).
  change (Kb.working (env (engine_world w cat ws))) with ws.
  destruct (triage_answer cat ws) as [lvl exps] eqn:Hanswer.
  cbv beta iota. rewrite bind_run.
  rewrite (try_except_returns _ _ _ (breakdown_answer cat ws)
             (engine_world w cat ws)).
  2: { rewrite bind_run, (run_triage_all_kb (engine_world w cat ws) cat eq_refl).
       change (Kb.working (env (engine_world w cat ws))) with ws.
       rewrite <- (breakdown_answer_dict cat ws) at 2. reflexivity. }
  unfold triage_result. rewrite Hanswer. reflexivity.
Qed.

End Over_kb.

(** ** Properties of the specification, over the knowledge base *)

(** C1.  With a well-formed catalog loaded, [run_triage] returns, for every
    working set, the name of the highest tier (critical > urgent >
    moderate > low) reached by some rule whose condition is contained in
    the working set, and ["none"] when no rule fires; the [level] field
    of [run_triage_for_symptoms] is that tier for the symptoms given. *)
Theorem primary_tier_is_highest_reached (dir : string) (cat : Kb.Catalog) :
  Kb.well_formed cat = true ->
  (forall w : World (Kb.platform dir),
      Kb.loaded (env w) = Some cat ->
      exists (t : Kb.Tier) (exps : list string),
        run_triage (Kb.platform dir) w = (Return (Kb.tier_name t, exps), w)
        /\ highest_reached cat (Kb.working (env w)) t)
  /\ (forall (w : World (Kb.platform dir)) (syms : list string),
         Kb.read_file (KB_PATH (Kb.platform dir)) (env w) = Some cat ->
         syms ⊆ Kb.vocabulary cat ->
         exists (t : Kb.Tier) (r : TriageResult) (w' : World (Kb.platform dir)),
           run_triage_for_symptoms (Kb.platform dir) syms w = (Return r, w')
           /\ level r = Kb.tier_name t
           /\ highest_reached cat syms t).
Proof.
  intros Hwf. split.
  - intros w Hloaded.
    exists (fst (Kb.primary cat (Kb.working (env w)))),
           (snd (triage_answer cat (Kb.working (env w)))).
    split; [ | apply primary_highest; exact Hwf ].
    rewrite (run_triage_kb dir w cat Hloaded), <- primary_tier_named.
    destruct (triage_answer cat (Kb.working (env w))); reflexivity.
  - intros w syms Hfile Hknown.
    exists (fst (Kb.primary cat (add_all syms []))),
           (triage_result cat (add_all syms []) syms),
           (engine_world w cat (add_all syms [])).
    split; [ apply run_triage_for_symptoms_kb; assumption | ].
    split; [ apply primary_tier_named | ].
    apply (highest_reached_same_elements cat (add_all syms [])).
    + apply add_all_nil_elements.
    + apply primary_highest. exact Hwf.
Qed.

Lemma primary_tier_is_highest_reached_witness :
  Kb.well_formed triage_kb = true
  /\ exists (t : Kb.Tier) (r : TriageResult) (w' : World app_platform),
       run_triage_for_symptoms app_platform
         ["chest_pain"; "shortness_of_breath"; "fever"]
         (boot (installed triage_kb)) = (Return r, w')
       /\ level r = Kb.tier_name t
       /\ highest_reached triage_kb
            ["chest_pain"; "shortness_of_breath"; "fever"] t.
Proof.
  split; [ reflexivity | ].
  apply (proj2 (primary_tier_is_highest_reached "/app" triage_kb eq_refl)
               (boot (installed triage_kb))).
  - reflexivity.
  - compute_done.
Defined.




Lemma count_absent (x : string) (l : list string) : x ∉ l -> count x l = 0.
Proof.
  unfold count. induction l as [|a l IH]; intros Habsent; [ reflexivity | ].
  apply not_elem_of_cons in Habsent as [Hne Habsent].
  rewrite filter_cons_False by congruence. apply IH, Habsent.
Qed.

Lemma count_once (x : string) (l : list string) :
  NoDup l -> x ∈ l -> count x l = 1.
Proof.
  induction l as [|a l IH]; intros Hnd Hin.
  - apply elem_of_nil in Hin. destruct Hin.
  - apply NoDup_cons in Hnd as [Hfresh Hnd].
    unfold count in *. destruct (decide (a = x)) as [->|Hne].
    + rewrite filter_cons_True by reflexivity. simpl.
      f_equal. apply (count_absent x l Hfresh).
    + rewrite filter_cons_False by exact Hne. apply IH; [ exact Hnd | ].
      apply elem_of_cons in Hin as [->|Hin]; [ done | exact Hin ].
Qed.

(** The working set never gains a duplicate, whatever goal is run. *)
Lemma answer_preserves_NoDup (g : goal) (st : Kb.State) :
  NoDup (Kb.working st) -> NoDup (Kb.working (snd (Kb.answer g st))).
Proof.
  intros Hnd. unfold Kb.answer. destruct (Kb.loaded st) as [cat|]; [ | exact Hnd ].
  destruct g as [ |id|id| | | |lv]; simpl; try exact Hnd.
  - apply NoDup_nil. exact I.
  - unfold Kb.add_symptom.
    destruct (decide (id ∈ Kb.vocabulary cat)); [ | exact Hnd ].
    destruct (decide (id ∈ Kb.working st)) as [Hin|Hout]; simpl; [ exact Hnd | ].
    apply NoDup_app. split; [ exact Hnd | ]. split; [ | apply NoDup_singleton ].
    intros y Hy ->%list_elem_of_singleton. done.
  - apply NoDup_filter. exact Hnd.
  - destruct (Kb.primary cat (Kb.working st)) as [[] exps]; exact Hnd.
  - destruct (Kb.tier_of_name lv) as [t|]; [ | exact Hnd ].
    destruct (Kb.fired_rules cat t (Kb.working st)); exact Hnd.
Qed.

Lemma add_all_twice (x : string) (ws : list string) :
  add_all [x] (add_all [x] ws) = add_all [x] ws.
Proof.
  simpl. destruct (decide (x ∈ ws)) as [Hin|Hout].
  - destruct (decide (x ∈ ws)); done.
  - destruct (decide (x ∈ ws ++ [x])) as [_|Hout']; [ reflexivity | ].
    destruct Hout'. apply elem_of_app. right. left.
Qed.

(** C3.  [add_symptom] is idempotent: adding [x] twice and reading the
    working set gives the same result and the same world as adding it
    once; for a known [x] the list read back contains [x], and when the
    working set had no duplicate it has none either and holds [x] exactly
    once. *)
Theorem add_symptom_idempotent
    (dir : string) (w : World (Kb.platform dir)) (cat : Kb.Catalog)
    (x : string) :
  Kb.loaded (env w) = Some cat ->
  (add_symptom (Kb.platform dir) x ;;
   add_symptom (Kb.platform dir) x ;;
   get_current_symptoms (Kb.platform dir)) w
  = (add_symptom (Kb.platform dir) x ;;
     get_current_symptoms (Kb.platform dir)) w
  /\ (x ∈ Kb.vocabulary cat ->
      exists (l : list string) (w' : World (Kb.platform dir)),
        (add_symptom (Kb.platform dir) x ;;
         get_current_symptoms (Kb.platform dir)) w = (Return l, w')
        /\ x ∈ l
        /\ (NoDup (Kb.working (env w)) -> NoDup l /\ count x l = 1)).
Proof.
  intros Hloaded. split.
  - destruct (decide (x ∈ Kb.vocabulary cat)) as [Hknown|Hunknown].
    + rewrite !bind_run.
      rewrite (add_symptom_known dir w cat x Hloaded Hknown).
      rewrite bind_run.
      rewrite (add_symptom_known dir (engine_world w cat _) cat x eq_refl Hknown).
      rewrite engine_world_again.
      change (Kb.working (env (engine_world w cat ?ws))) with ws.
      rewrite add_all_twice. reflexivity.
    + pose proof (add_symptom_unknown dir w cat x Hloaded Hunknown) as Hadd.
      rewrite (bind_raises _ _ _ _ _ Hadd). symmetry.
      apply bind_raises. exact Hadd.
  - intros Hknown.
    exists (add_all [x] (Kb.working (env w))),
           (engine_world w cat (add_all [x] (Kb.working (env w)))).
    split; [ | split ].
    + rewrite bind_run, (add_symptom_known dir w cat x Hloaded Hknown).
      apply (get_current_symptoms_kb dir (engine_world w cat _) cat eq_refl).
    + apply add_all_elements. left. left.
    + intros Hnd. pose proof (add_all_NoDup [x] _ Hnd) as Hnd'.
      split; [ exact Hnd' | ]. apply count_once; [ exact Hnd' | ].
      apply add_all_elements. left. left.
Qed.

Lemma add_symptom_idempotent_witness :
  (add_symptom app_platform "fever" ;;
   add_symptom app_platform "fever" ;;
   get_current_symptoms app_platform) (boot (consulted triage_kb ["cough"]))
  = (add_symptom app_platform "fever" ;;
     get_current_symptoms app_platform) (boot (consulted triage_kb ["cough"]))
  /\ ("fever" ∈ Kb.vocabulary triage_kb ->
      exists (l : list string) (w' : World app_platform),
        (add_symptom app_platform "fever" ;;
         get_current_symptoms app_platform)
          (boot (consulted triage_kb ["cough"])) = (Return l, w')
        /\ "fever" ∈ l
        /\ (NoDup ["cough"] -> NoDup l /\ count "fever" l = 1)).
Proof.
  apply (add_symptom_idempotent "/app" (boot (consulted triage_kb ["cough"]))
           triage_kb "fever").
  reflexivity.
Defined.

(** C4.  The breakdown [run_triage_all] produces, and the [all_levels]
    field built from it, has its keys in the order critical, urgent,
    moderate, low, has no key ["none"], and holds exactly the tiers with a
    fired rule, each with the explanations of its fired rules.  Order and
    absence of ["none"] come from the loop of [run_triage_all] alone and
    hold on any platform. *)
Theorem breakdown_lists_fired_tiers_in_order (dir : string) (cat : Kb.Catalog) :
  (forall w : World (Kb.platform dir),
      Kb.loaded (env w) = Some cat ->
      exists al : list (string * list string),
        run_triage_all (Kb.platform dir) w = (Return al, w)
        /\ breakdown_ok cat (Kb.working (env w)) al)
  /\ (forall (w : World (Kb.platform dir)) (syms : list string),
         Kb.read_file (KB_PATH (Kb.platform dir)) (env w) = Some cat ->
         Kb.well_formed cat = true ->
         syms ⊆ Kb.vocabulary cat ->
         exists (r : TriageResult) (w' : World (Kb.platform dir)),
           run_triage_for_symptoms (Kb.platform dir) syms w = (Return r, w')
           /\ breakdown_ok cat syms (all_levels r))
  /\ (forall (P : Platform) (w w' : World P) (al : list (string * list string)),
         run_triage_all P w = (Return al, w') ->
         sublist (dict_keys al) ["critical"; "urgent"; "moderate"; "low"]
         /\ "none" ∉ dict_keys al).
Proof.
  split; [ | split ].
  3: { intros P w w' al Hrun. pose proof (run_triage_all_keys P al w w' Hrun) as Hsub.
       split; [ exact Hsub | ]. intros Hnone.
       apply (elem_of_sublist _ _ _ Hnone) in Hsub.
       revert Hsub. rewrite !elem_of_cons, elem_of_nil.
       intros [|[|[|[|[]]]]]; discriminate. }
  - intros w Hloaded. exists (breakdown_answer cat (Kb.working (env w))).
    split; [ apply run_triage_all_kb; exact Hloaded | apply breakdown_answer_ok ].
  - intros w syms Hfile Hwf Hknown.
    exists (triage_result cat (add_all syms []) syms),
           (engine_world w cat (add_all syms [])).
    split; [ apply run_triage_for_symptoms_kb; assumption | ].
    apply (breakdown_ok_same_elements cat (add_all syms [])).
    + apply add_all_nil_elements.
    + apply breakdown_answer_ok.
Qed.

Lemma breakdown_lists_fired_tiers_in_order_witness :
  exists al : list (string * list string),
    run_triage_all app_platform
      (boot (consulted triage_kb ["chest_pain"; "headache"; "fever"; "cough"]))
    = (Return al,
       boot (consulted triage_kb ["chest_pain"; "headache"; "fever"; "cough"]))
    /\ breakdown_ok triage_kb ["chest_pain"; "headache"; "fever"; "cough"] al.
Proof.
  apply (proj1 (breakdown_lists_fired_tiers_in_order "/app" triage_kb)
           (boot (consulted triage_kb
                    ["chest_pain"; "headache"; "fever"; "cough"]))).
  reflexivity.
Defined.

(** C5.  Given known symptoms and a well-formed knowledge base on disk,
    [run_triage_for_symptoms] returns its four-field result: [symptoms]
    is the input as given; the working set it leaves is the input added
    to an empty set, whatever the process held before; [level],
    [explanations] and [all_levels] are what [run_triage] and
    [run_triage_all] give on that working set; a second call returns the
    same result, as does a call from any other state of the process. *)
Theorem run_triage_for_symptoms_stateless
    (dir : string) (cat : Kb.Catalog) (w : World (Kb.platform dir))
    (syms : list string) :
  Kb.read_file (KB_PATH (Kb.platform dir)) (env w) = Some cat ->
  Kb.well_formed cat = true ->
  syms ⊆ Kb.vocabulary cat ->
  exists (r : TriageResult) (w' : World (Kb.platform dir)),
    run_triage_for_symptoms (Kb.platform dir) syms w = (Return r, w')
    /\ symptoms r = syms
    /\ Kb.working (env w') = add_all syms []
    /\ run_triage (Kb.platform dir) w' = (Return (level r, explanations r), w')
    /\ run_triage_all (Kb.platform dir) w' = (Return (all_levels r), w')
    /\ run_triage_for_symptoms (Kb.platform dir) syms w' = (Return r, w')
    /\ (forall w0 : World (Kb.platform dir),
          Kb.read_file (KB_PATH (Kb.platform dir)) (env w0) = Some cat ->
          fst (run_triage_for_symptoms (Kb.platform dir) syms w0) = Return r).
Proof.
  intros Hfile Hwf Hknown.
  exists (triage_result cat (add_all syms []) syms),
         (engine_world w cat (add_all syms [])).
  split; [ apply run_triage_for_symptoms_kb; assumption | ].
  split; [ reflexivity | ]. split; [ reflexivity | ]. split; [ | split; [ | split ] ].
  - rewrite (run_triage_kb dir (engine_world w cat _) cat eq_refl).
    simpl. destruct (triage_answer cat (add_all syms [])); reflexivity.
  - apply (run_triage_all_kb dir (engine_world w cat _) cat eq_refl).
  - rewrite (run_triage_for_symptoms_kb dir syms (engine_world w cat _) cat);
      [ reflexivity | exact Hfile | exact Hwf | exact Hknown ].
  - intros w0 Hfile0.
    rewrite (run_triage_for_symptoms_kb dir syms w0 cat Hfile0 Hwf Hknown).
    reflexivity.
Qed.

Lemma run_triage_for_symptoms_stateless_witness :
  exists (r : TriageResult) (w' : World app_platform),
    run_triage_for_symptoms app_platform ["fever"; "cough"; "fever"]
      (boot (consulted triage_kb ["seizure"])) = (Return r, w')
    /\ symptoms r = ["fever"; "cough"; "fever"]
    /\ Kb.working (env w') = add_all ["fever"; "cough"; "fever"] []
    /\ run_triage app_platform w' = (Return (level r, explanations r), w')
    /\ run_triage_all app_platform w' = (Return (all_levels r), w')
    /\ run_triage_for_symptoms app_platform ["fever"; "cough"; "fever"] w'
       = (Return r, w')
    /\ (forall w0 : World app_platform,
          Kb.read_file (KB_PATH app_platform) (env w0) = Some triage_kb ->
          fst (run_triage_for_symptoms app_platform
                 ["fever"; "cough"; "fever"] w0) = Return r).
Proof.
  apply (run_triage_for_symptoms_stateless "/app" triage_kb
           (boot (consulted triage_kb ["seizure"]))
           ["fever"; "cough"; "fever"]).
  - reflexivity.
  - reflexivity.
  - compute_done.
Defined.

(** The fallback of [run_triage], on any platform: a query without a
    solution gives level ["none"] and the default message. *)
Lemma run_triage_no_solution (P : Platform) (w w' : World P) :
  prolog_query P triage_goal w = (Return [], w') ->
  run_triage P w = (Return ("none", ["Unable to determine triage level."]), w').
Proof.
  intros Hquery. unfold run_triage. rewrite bind_run, Hquery. reflexivity.
Qed.

(** C6.  With a catalog loaded, [run_triage] always returns and leaves the
    world as it was; when no rule fires, and so for the empty working set
    under a well-formed catalog, it returns level ["none"] with the
    message "Unable to determine triage level.". *)
Theorem run_triage_total
    (dir : string) (w : World (Kb.platform dir)) (cat : Kb.Catalog) :
  Kb.loaded (env w) = Some cat ->
  (exists (lvl : string) (exps : list string),
      run_triage (Kb.platform dir) w = (Return (lvl, exps), w))
  /\ ((forall r, r ∈ Kb.rule_table cat -> ~ Kb.fires (Kb.working (env w)) r) ->
      prolog_query (Kb.platform dir) triage_goal w = (Return [], w)
      /\ run_triage (Kb.platform dir) w
         = (Return ("none", ["Unable to determine triage level."]), w))
  /\ (Kb.well_formed cat = true -> Kb.working (env w) = [] ->
      run_triage (Kb.platform dir) w
      = (Return ("none", ["Unable to determine triage level."]), w)).
Proof.
  intros Hloaded.
  pose proof (run_triage_kb dir w cat Hloaded) as Hrun.
  split; [ | split ].
  - exists (fst (triage_answer cat (Kb.working (env w)))),
           (snd (triage_answer cat (Kb.working (env w)))).
    rewrite Hrun. destruct (triage_answer cat (Kb.working (env w))); reflexivity.
  - intros Hnone.
    assert (Hquery : prolog_query (Kb.platform dir) triage_goal w = (Return [], w)).
    { rewrite query_kb. unfold Kb.answer. rewrite Hloaded.
      pose proof (no_rule_fires_answer cat _ Hnone) as Hanswer.
      unfold triage_answer in Hanswer.
      destruct (Kb.primary cat (Kb.working (env w))) as [[] exps];
        try discriminate Hanswer.
      simpl. rewrite world_eta. reflexivity. }
    split; [ exact Hquery | apply run_triage_no_solution; exact Hquery ].
  - intros Hwf Hempty. rewrite Hrun, Hempty.
    rewrite no_rule_fires_answer; [ reflexivity | ].
    intros r Hin. apply (nothing_fires_on_empty cat r Hwf Hin).
Qed.

Lemma run_triage_total_witness :
  (exists (lvl : string) (exps : list string),
      run_triage app_platform (boot (consulted triage_kb []))
      = (Return (lvl, exps), boot (consulted triage_kb [])))
  /\ ((forall r, r ∈ Kb.rule_table triage_kb -> ~ Kb.fires [] r) ->
      prolog_query app_platform triage_goal (boot (consulted triage_kb []))
      = (Return [], boot (consulted triage_kb []))
      /\ run_triage app_platform (boot (consulted triage_kb []))
         = (Return ("none", ["Unable to determine triage level."]),
            boot (consulted triage_kb [])))
  /\ (Kb.well_formed triage_kb = true ->
      Kb.working (consulted triage_kb []) = [] ->
      run_triage app_platform (boot (consulted triage_kb []))
      = (Return ("none", ["Unable to determine triage level."]),
         boot (consulted triage_kb []))).
Proof.
  apply (run_triage_total "/app" (boot (consulted triage_kb [])) triage_kb).
  reflexivity.
Defined.

Lemma remove_absent (id : string) (ws : list string) :
  id ∉ ws -> Kb.remove_symptom id ws = ws.
Proof.
  unfold Kb.remove_symptom. induction ws as [|s ws IH]; intros Habsent.
  - reflexivity.
  - apply not_elem_of_cons in Habsent as [Hne Habsent].
    rewrite filter_cons_True by congruence. rewrite (IH Habsent). reflexivity.
Qed.

(** C8.  Removing an identifier that is not in the working set returns
    normally and leaves the world, hence the working set, unchanged. *)
Theorem remove_absent_symptom_is_noop
    (dir : string) (w : World (Kb.platform dir)) (cat : Kb.Catalog)
    (id : string) :
  Kb.loaded (env w) = Some cat ->
  id ∉ Kb.working (env w) ->
  remove_symptom (Kb.platform dir) id w = (Return tt, w).
Proof.
  intros Hloaded Habsent.
  rewrite (remove_symptom_kb dir w cat id Hloaded).
  rewrite (remove_absent id _ Habsent).
  rewrite (engine_world_id dir w cat Hloaded). reflexivity.
Qed.

Lemma remove_absent_symptom_is_noop_witness :
  remove_symptom app_platform "cough" (boot (consulted triage_kb ["fever"]))
  = (Return tt, boot (consulted triage_kb ["fever"])).
Proof.
  apply (remove_absent_symptom_is_noop "/app"
           (boot (consulted triage_kb ["fever"])) triage_kb "cough").
  - reflexivity.
  - compute_done.
Defined.

(** C9.  Over the documented rules, chest pain alone evaluates to
    ["urgent"], not ["critical"], and chest pain with shortness of breath
    to ["critical"]: no critical rule fires on chest pain alone, since a
    rule is among the fired rules exactly when
    it is a rule of that tier whose whole condition lies in the working
    set. *)
Theorem chest_pain_alone_is_urgent
    (dir : string) (w : World (Kb.platform dir)) :
  Kb.read_file (KB_PATH (Kb.platform dir)) (env w) = Some triage_kb ->
  (exists (r : TriageResult) (w' : World (Kb.platform dir)),
      run_triage_for_symptoms (Kb.platform dir) ["chest_pain"] w = (Return r, w')
      /\ level r = "urgent" /\ level r <> "critical")
  /\ (exists (r : TriageResult) (w' : World (Kb.platform dir)),
         run_triage_for_symptoms (Kb.platform dir)
           ["chest_pain"; "shortness_of_breath"] w = (Return r, w')
         /\ level r = "critical")
  /\ Kb.fired_rules triage_kb Kb.critical ["chest_pain"] = []
  /\ (forall (cat : Kb.Catalog) (t : Kb.Tier) (ws : list string) (r : Kb.Rule),
         r ∈ Kb.fired_rules cat t ws <->
         r ∈ Kb.rule_table cat /\ Kb.rule_tier r = t /\ Kb.condition r ⊆ ws).
Proof.
  intros Hfile. split; [ | split; [ | split ] ].
  - eexists _, _. split.
    + apply (run_triage_for_symptoms_kb dir ["chest_pain"] w triage_kb Hfile).
      * reflexivity.
      * compute_done.
    + split; [ reflexivity | discriminate ].
  - eexists _, _. split.
    + apply (run_triage_for_symptoms_kb dir
               ["chest_pain"; "shortness_of_breath"] w triage_kb Hfile).
      * reflexivity.
      * compute_done.
    + reflexivity.
  - vm_compute. reflexivity.
  - apply fired_rules_spec.
Qed.

Lemma chest_pain_alone_is_urgent_witness :
  (exists (r : TriageResult) (w' : World app_platform),
      run_triage_for_symptoms app_platform ["chest_pain"]
        (boot (installed triage_kb)) = (Return r, w')
      /\ level r = "urgent" /\ level r <> "critical")
  /\ (exists (r : TriageResult) (w' : World app_platform),
         run_triage_for_symptoms app_platform
           ["chest_pain"; "shortness_of_breath"]
           (boot (installed triage_kb)) = (Return r, w')
         /\ level r = "critical")
  /\ Kb.fired_rules triage_kb Kb.critical ["chest_pain"] = []
  /\ (forall (cat : Kb.Catalog) (t : Kb.Tier) (ws : list string) (r : Kb.Rule),
         r ∈ Kb.fired_rules cat t ws <->
         r ∈ Kb.rule_table cat /\ Kb.rule_tier r = t /\ Kb.condition r ⊆ ws).
Proof.
  apply (chest_pain_alone_is_urgent "/app" (boot (installed triage_kb))).
  reflexivity.
Defined.

(** C10.  When [run_triage_all] raises an exception (one derived from
    [Exception]), [run_triage_for_symptoms] still returns, with
    [all_levels] empty and [level] and [explanations] as [run_triage] gave
    them; so [all_levels] can be empty although the level is not ["none"]
    and a rule has fired, as on a process whose [fired_rules] query
    breaks. *)
Theorem breakdown_failure_is_swallowed :
  (forall (P : Platform) (syms : list string) (w w1 w2 : World P)
          (lvl : string) (exps : list string) (e : exn),
      (TriageEngine_init P (KB_PATH P) ;;
       for_in syms (add_symptom P) ;;
       run_triage P) w = (Return (lvl, exps), w1) ->
      run_triage_all P w1 = (Raise e, w2) ->
      is_Exception e = true ->
      run_triage_for_symptoms P syms w =
        (Return {| level := lvl; explanations := exps;
                   all_levels := []; symptoms := syms |}, w2))
  /\ (exists (syms : list string) (w w' : World app_platform_failing)
             (r : TriageResult),
         run_triage_for_symptoms app_platform_failing syms w = (Return r, w')
         /\ level r <> "none"
         /\ all_levels r = []
         /\ Kb.fired_rules triage_kb Kb.urgent (Kb.working (env w')) <> []).
Proof.
  split.
  - intros P syms w w1 w2 lvl exps e.
    apply run_triage_for_symptoms_swallows.
  - exists ["chest_pain"], (boot_failing (installed triage_kb)).
    eexists _, _. split; [ vm_compute; reflexivity | ].
    split; [ discriminate | ]. split; [ reflexivity | ].
    vm_compute. discriminate.
Qed.

Lemma breakdown_failure_is_swallowed_witness :
  run_triage_for_symptoms app_platform_failing ["chest_pain"]
    (boot_failing (installed triage_kb))
  = (Return {| level := "urgent"; explanations := ["Chest pain"];
               all_levels := []; symptoms := ["chest_pain"] |},
     boot_failing (consulted triage_kb ["chest_pain"])).
Proof.
  apply (proj1 breakdown_failure_is_swallowed app_platform_failing
           ["chest_pain"]
           (boot_failing (installed triage_kb))
           (boot_failing (consulted triage_kb ["chest_pain"]))
           (boot_failing (consulted triage_kb ["chest_pain"]))
           "urgent" ["Chest pain"]
           (PrologError "fired_rules/2 raised")).
  - vm_compute. reflexivity.
  - vm_compute. reflexivity.
  - reflexivity.
Defined.

(** * Further properties of [triage.py] *)

(** ** [run_triage_for_symptoms]: failures (any platform) *)

(** X1.  Without the knowledge-base file [run_triage_for_symptoms] raises
    [FileNotFoundError] to its caller, prints nothing and leaves the
    environment as it was: the engine construction is not guarded there
    as it is in [run_interactive]. *)
Theorem run_triage_for_symptoms_missing_kb
    (P : Platform) (syms : list string) (w : World P) :
  path_exists P (KB_PATH P) (env w) = false ->
  run_triage_for_symptoms P syms w =
  (Raise (FileNotFoundError ("Knowledge base not found: " +:+ KB_PATH P)), w).
Proof.
  intros Hmissing. unfold run_triage_for_symptoms.
  apply bind_raises, init_missing_file. exact Hmissing.
Qed.

Lemma run_triage_for_symptoms_missing_kb_witness :
  run_triage_for_symptoms app_platform ["fever"] (boot bare) =
  (Raise (FileNotFoundError
            ("Knowledge base not found: " +:+ KB_PATH app_platform)),
   boot bare).
Proof.
  apply (run_triage_for_symptoms_missing_kb app_platform ["fever"] (boot bare)).
  reflexivity.
Defined.



(** X3.  The clause [except Exception] around the breakdown does not
    catch what derives from [BaseException] only: a [KeyboardInterrupt]
    or [SystemExit] raised by [run_triage_all] leaves
    [run_triage_for_symptoms] as it is, and no result is returned. *)
Theorem base_exception_not_swallowed
    (P : Platform) (syms : list string) (w w1 w2 : World P)
    (lvl : string) (exps : list string) (e : exn) :
  (TriageEngine_init P (KB_PATH P) ;;
   for_in syms (add_symptom P) ;;
   run_triage P) w = (Return (lvl, exps), w1) ->
  run_triage_all P w1 = (Raise e, w2) ->
  is_Exception e = false ->
  run_triage_for_symptoms P syms w = (Raise e, w2).
Proof.
  intros Heval Hall Hbase. unfold run_triage_for_symptoms.
  rewrite bind_run in Heval. rewrite bind_run.
  destruct (TriageEngine_init P (KB_PATH P) w) as [[[]|e0] wa]; [ | discriminate ].
  cbv beta in Heval |- *. rewrite bind_run in Heval. rewrite bind_run.
  destruct (for_in syms (add_symptom P) wa) as [[[]|e1] wb]; [ | discriminate ].
  cbv beta in Heval |- *. rewrite bind_run, Heval. cbv beta iota.
  apply bind_raises. unfold try_except.
  rewrite (bind_raises _ _ _ _ _ Hall), Hbase. reflexivity.
Qed.

Lemma base_exception_not_swallowed_witness :
  run_triage_for_symptoms app_platform_interrupted ["chest_pain"]
    (boot_interrupted (installed triage_kb))
  = (Raise KeyboardInterrupt,
     boot_interrupted (consulted triage_kb ["chest_pain"])).
Proof.
  apply (base_exception_not_swallowed app_platform_interrupted ["chest_pain"]
           (boot_interrupted (installed triage_kb))
           (boot_interrupted (consulted triage_kb ["chest_pain"]))
           (boot_interrupted (consulted triage_kb ["chest_pain"]))
           "urgent" ["Chest pain"] KeyboardInterrupt).
  - vm_compute. reflexivity.
  - vm_compute. reflexivity.
  - reflexivity.
Defined.

(** X4.  When the breakdown query succeeds, the dict comprehension of
    [run_triage_for_symptoms] keeps it whole: [all_levels] has the
    entries [run_triage_all] returned, in the same order, on any
    platform. *)
Theorem run_triage_for_symptoms_keeps_breakdown
    (P : Platform) (syms : list string) (w w1 w2 : World P)
    (lvl : string) (exps : list string) (al : list (string * list string)) :
  (TriageEngine_init P (KB_PATH P) ;;
   for_in syms (add_symptom P) ;;
   run_triage P) w = (Return (lvl, exps), w1) ->
  run_triage_all P w1 = (Return al, w2) ->
  run_triage_for_symptoms P syms w =
    (Return {| level := lvl; explanations := exps;
               all_levels := al; symptoms := syms |}, w2).
Proof.
  intros Heval Hall. unfold run_triage_for_symptoms.
  rewrite bind_run in Heval. rewrite bind_run.
  destruct (TriageEngine_init P (KB_PATH P) w) as [[[]|e0] wa]; [ | discriminate ].
  cbv beta in Heval |- *. rewrite bind_run in Heval. rewrite bind_run.
  destruct (for_in syms (add_symptom P) wa) as [[[]|e1] wb]; [ | discriminate ].
  cbv beta in Heval |- *. rewrite bind_run, Heval. cbv beta iota.
  rewrite bind_run.
  rewrite (try_except_returns _ _ w1 al w2); [ reflexivity | ].
  rewrite (bind_returns _ _ _ _ _ Hall).
  rewrite dict_of_pairs_distinct; [ reflexivity | ].
  eapply sublist_NoDup; [ | exact (run_triage_all_keys P al w1 w2 Hall) ].
  compute_done.
Qed.

Lemma run_triage_for_symptoms_keeps_breakdown_witness :
  run_triage_for_symptoms app_platform ["headache"; "dizziness"]
    (boot (installed triage_kb))
  = (Return {| level := "moderate";
               explanations := ["Headache with dizziness"];
               all_levels := [("moderate", ["Headache with dizziness"]);
                              ("low", ["Headache"])];
               symptoms := ["headache"; "dizziness"] |},
     boot (consulted triage_kb ["headache"; "dizziness"])).
Proof.
  apply (run_triage_for_symptoms_keeps_breakdown app_platform
           ["headache"; "dizziness"] (boot (installed triage_kb))
           (boot (consulted triage_kb ["headache"; "dizziness"]))
           (boot (consulted triage_kb ["headache"; "dizziness"]))).
  - vm_compute. reflexivity.
  - vm_compute. reflexivity.
Defined.

(** ** The engine methods and the solutions of their queries *)

(** X5.  [add_symptom], [remove_symptom] and [clear_symptoms] discard the
    solutions of their query: they return [None] whether the goal had
    solutions or none (a goal that failed), so a failed goal is never
    reported to the caller. *)
Theorem engine_updates_ignore_solutions
    (P : Platform) (id : string) (w w' : World P) (sols : list solution) :
  (prolog_query P (add_symptom_goal id) w = (Return sols, w') ->
   add_symptom P id w = (Return tt, w'))
  /\ (prolog_query P (remove_symptom_goal id) w = (Return sols, w') ->
      remove_symptom P id w = (Return tt, w'))
  /\ (prolog_query P clear_symptoms_goal w = (Return sols, w') ->
      clear_symptoms P w = (Return tt, w')).
Proof.
  split; [ | split ]; intros Hquery.
  - unfold add_symptom. rewrite (bind_returns _ _ _ _ _ Hquery). reflexivity.
  - unfold remove_symptom. rewrite (bind_returns _ _ _ _ _ Hquery). reflexivity.
  - unfold clear_symptoms. rewrite (bind_returns _ _ _ _ _ Hquery). reflexivity.
Qed.

Lemma engine_updates_ignore_solutions_witness :
  remove_symptom app_platform "fever" (boot (consulted triage_kb ["fever"]))
  = (Return tt, boot (consulted triage_kb [])).
Proof.
  apply (proj1 (proj2 (engine_updates_ignore_solutions app_platform "fever"
                         (boot (consulted triage_kb ["fever"]))
                         (boot (consulted triage_kb [])) [[]]))).
  vm_compute. reflexivity.
Defined.



(** ** What is sent to Prolog (any platform, logged) *)

Section Traced.

Context (P : Platform).

Local Abbreviation T := (traced P).

Lemma logs_weaken {A : Type} (m : Py T A) (w : World T) (script : list call)
    (Q R : A -> list call -> Prop) :
  logs m w script Q -> (forall a l, Q a l -> R a l) -> logs m w script R.
Proof.
  intros (l & Hl & Hpre & HQ) HQR. exists l.
  split; [ exact Hl | ]. split; [ exact Hpre | ].
  intros a Ha. apply HQR, HQ, Ha.
Qed.

Lemma sends_bind {A B : Type} (m : Py T A) (f : A -> Py T B) (w : World T)
    (s1 s2 : list call) (R : B -> list call -> Prop) :
  sends m w s1 ->
  (forall a w1, m w = (Return a, w1) ->
                logs (f a) w1 s2 (fun b l2 => R b (s1 ++ l2))) ->
  logs (m ≫= f) w (s1 ++ s2) R.
Proof.
  intros (l1 & Hl1 & Hpre1 & Hexact) Hf. unfold logs. rewrite bind_run.
  destruct (m w) as [[a|e] w1] eqn:Hm; simpl in *.
  - rewrite (Hexact a eq_refl) in Hl1.
    destruct (Hf a w1 eq_refl) as (l2 & Hl2 & Hpre2 & HR).
    exists (s1 ++ l2). split; [ | split ].
    + rewrite Hl2, Hl1, (assoc_L (++)). reflexivity.
    + apply prefix_app, Hpre2.
    + exact HR.
  - exists l1. split; [ exact Hl1 | ]. split.
    + apply prefix_app_r, Hpre1.
    + discriminate.
Qed.

Lemma sends_then {A B : Type} (m : Py T A) (f : A -> Py T B) (w : World T)
    (s1 s2 : list call) :
  sends m w s1 ->
  (forall a w1, m w = (Return a, w1) -> sends (f a) w1 s2) ->
  sends (m ≫= f) w (s1 ++ s2).
Proof.
  intros Hm Hf. apply (sends_bind m f w s1 s2); [ exact Hm | ].
  intros a w1 Ha. eapply logs_weaken; [ apply (Hf a w1 Ha) | ].
  intros b l ->. reflexivity.
Qed.

Lemma sends_ret {A : Type} (a : A) (w : World T) : sends (mret a) w [].
Proof.
  exists []. split; [ | split ].
  - simpl. rewrite (right_id_L [] (++)). reflexivity.
  - reflexivity.
  - reflexivity.
Qed.

Lemma sends_raise {A : Type} (e : exn) (w : World T) :
  sends (raise e : Py T A) w [].
Proof.
  exists []. split; [ | split ].
  - simpl. rewrite (right_id_L [] (++)). reflexivity.
  - reflexivity.
  - reflexivity.
Qed.

Lemma sends_quiet_then {A B : Type} (m : Py T A) (f : A -> Py T B)
    (w : World T) (s : list call) :
  sends m w [] ->
  (forall a w1, m w = (Return a, w1) -> sends (f a) w1 s) ->
  sends (m ≫= f) w s.
Proof. intros Hm Hf. apply (sends_then m f w [] s Hm Hf). Qed.

Lemma sends_then_quiet {A B : Type} (m : Py T A) (f : A -> Py T B)
    (w : World T) (s : list call) :
  sends m w s ->
  (forall a w1, m w = (Return a, w1) -> sends (f a) w1 []) ->
  sends (m ≫= f) w s.
Proof.
  intros Hm Hf. rewrite <- (right_id_L [] (++) s).
  apply (sends_then m f w s [] Hm Hf).
Qed.

Lemma sends_subscript (sol : solution) (key : string) (w : World T) :
  sends (subscript T sol key) w [].
Proof.
  unfold subscript. destruct (dict_get sol key);
    [ apply sends_ret | apply sends_raise ].
Qed.

Lemma sends_iterate (t : term) (w : World T) : sends (iterate T t) w [].
Proof. destruct t; apply sends_ret. Qed.

Lemma sends_query (g : goal) (w : World T) :
  sends (prolog_query T g) w [Query g].
Proof.
  exists [Query g]. split; [ reflexivity | ]. split; reflexivity.
Qed.

Lemma sends_consult (path : string) (w : World T) :
  sends (on_env (consult T path)) w [Consult path].
Proof.
  exists [Consult path]. split; [ reflexivity | ]. split; reflexivity.
Qed.

Lemma sends_add_symptom (s : string) (w : World T) :
  sends (add_symptom T s) w [Query (add_symptom_goal s)].
Proof.
  unfold add_symptom. apply sends_then_quiet; [ apply sends_query | ].
  intros. apply sends_ret.
Qed.

Lemma sends_for_in_add (syms : list string) (w : World T) :
  sends (for_in syms (add_symptom T)) w
        (map (fun s => Query (add_symptom_goal s)) syms).
Proof.
  revert w. induction syms as [|s syms IH]; intros w; simpl.
  - apply sends_ret.
  - apply (sends_then _ _ w [Query (add_symptom_goal s)]);
      [ apply sends_add_symptom | ].
    intros a w1 _. apply IH.
Qed.

Lemma sends_run_triage (w : World T) :
  sends (run_triage T) w [Query triage_goal].
Proof.
  unfold run_triage. apply sends_then_quiet; [ apply sends_query | ].
  intros [|first rest] w1 _; [ apply sends_ret | ].
  apply sends_quiet_then; [ apply sends_subscript | ]. intros Level w2 _.
  apply sends_quiet_then; [ apply sends_subscript | ]. intros Expl w3 _.
  apply sends_quiet_then; [ apply sends_iterate | ]. intros items w4 _.
  apply sends_ret.
Qed.

Lemma sends_run_triage_all_from (levels : list string)
    (acc : list (string * list string)) (w : World T) :
  sends (run_triage_all_from T levels acc) w
        (map (fun lv => Query (fired_rules_goal lv)) levels).
Proof.
  revert acc w. induction levels as [|lv levels IH]; intros acc w; simpl.
  - apply sends_ret.
  - apply (sends_then _ _ w [Query (fired_rules_goal lv)]);
      [ apply sends_query | ].
    intros [|first rest] w1 _; [ apply IH | ].
    apply sends_quiet_then; [ apply sends_subscript | ]. intros Expl w2 _.
    apply sends_quiet_then; [ apply sends_iterate | ]. intros items w3 _.
    apply IH.
Qed.

Lemma sends_raise_any {A : Type} (e : exn) (w : World T) (script : list call) :
  sends (raise e : Py T A) w script.
Proof.
  exists []. split; [ | split ].
  - simpl. rewrite (right_id_L [] (++)). reflexivity.
  - apply prefix_nil.
  - discriminate.
Qed.

Lemma sends_init (kb_path : string) (w : World T) :
  sends (TriageEngine_init T kb_path) w
        [ Consult (replace_char "\"%char "/"%char
                     (path_resolve P kb_path (underlying w)));
          Query clear_symptoms_goal ].
Proof.
  unfold TriageEngine_init.
  apply sends_quiet_then.
  { exists []. split; [ | split ]; [ | reflexivity | reflexivity ].
    simpl. rewrite (right_id_L [] (++)). reflexivity. }
  intros resolved w1 [= <- <-].
  apply sends_quiet_then.
  { exists []. split; [ | split ]; [ | reflexivity | reflexivity ].
    simpl. rewrite (right_id_L [] (++)). reflexivity. }
  intros found w2 [= <- <-].
  destruct (path_exists P kb_path _); simpl; [ | apply sends_raise_any ].
  apply (sends_then _ _ _ [Consult _] [Query clear_symptoms_goal]);
    [ apply sends_consult | ].
  intros a w3 _. apply sends_then_quiet; [ apply sends_query | ].
  intros. apply sends_ret.
Qed.

Lemma logs_then_ret {A B : Type} (m : Py T A) (g : A -> B) (w : World T)
    (script : list call) (Q : A -> list call -> Prop) :
  logs m w script Q ->
  logs (m ≫= fun a => mret (g a)) w script
       (fun b l => exists a, b = g a /\ Q a l).
Proof.
  intros (l & Hl & Hpre & HQ). unfold logs. rewrite bind_run.
  destruct (m w) as [[a|e] w1]; simpl in *.
  - exists l. split; [ exact Hl | ]. split; [ exact Hpre | ].
    intros b [= <-]. exists a. split; [ reflexivity | apply HQ; reflexivity ].
  - exists l. split; [ exact Hl | ]. split; [ exact Hpre | discriminate ].
Qed.

Lemma logs_guarded_breakdown (w : World T) :
  logs (try_except
          (all_levels ← run_triage_all T; mret (dict_of_pairs all_levels))
          (fun e => if is_Exception e then Some (mret []) else None))
       w breakdown_queries
       (fun d l => d <> [] -> l = breakdown_queries).
Proof.
  assert (Hbody : sends (all_levels ← run_triage_all T;
                         mret (dict_of_pairs all_levels)) w breakdown_queries).
  { apply sends_then_quiet; [ apply sends_run_triage_all_from | ].
    intros. apply sends_ret. }
  destruct Hbody as (l & Hl & Hpre & Hexact). unfold logs, try_except.
  destruct ((all_levels ← run_triage_all T; mret (dict_of_pairs all_levels)) w)
    as [[d|e] w1]; simpl in *.
  - exists l. split; [ exact Hl | ]. split; [ exact Hpre | ].
    intros d' _ _. apply (Hexact d). reflexivity.
  - destruct (is_Exception e); simpl.
    + exists l. split; [ exact Hl | ]. split; [ exact Hpre | ].
      intros d' [= <-] Hne. destruct Hne. reflexivity.
    + exists l. split; [ exact Hl | ]. split; [ exact Hpre | discriminate ].
Qed.

End Traced.

(** ** Logging changes nothing *)

Section Transparent.

Context (P : Platform) (B : Builtins).

Local Abbreviation T := (traced P).

Lemma mirrors_bind {A C : Type} (mT : Py T A) (mP : Py P A)
    (fT : A -> Py T C) (fP : A -> Py P C) :
  mirrors mT mP -> (forall a, mirrors (fT a) (fP a)) ->
  mirrors (mT ≫= fT) (mP ≫= fP).
Proof.
  intros Hm Hf w. rewrite !bind_run. destruct (Hm w) as [Hout Hworld].
  destruct (mT w) as [[a|e] w1], (mP (erase w)) as [[a'|e'] w1'];
    simpl in *; try discriminate.
  - injection Hout as <-. subst w1'. apply Hf.
  - injection Hout as <-. subst w1'. split; reflexivity.
Qed.

Lemma mirrors_then {A C : Type} (mT : Py T A) (mP : Py P A)
    (kT : Py T C) (kP : Py P C) :
  mirrors mT mP -> mirrors kT kP -> mirrors (mT ;; kT) (mP ;; kP).
Proof. intros Hm Hk. apply mirrors_bind; [ exact Hm | intros; exact Hk ]. Qed.

Lemma mirrors_ret {A : Type} (a : A) : mirrors (mret a : Py T A) (mret a).
Proof. intros w. split; reflexivity. Qed.

Lemma mirrors_raise {A : Type} (e : exn) :
  mirrors (raise e : Py T A) (raise e).
Proof. intros w. split; reflexivity. Qed.

Lemma mirrors_print (text : string) : mirrors (print T text) (print P text).
Proof. intros w. split; reflexivity. Qed.

Lemma mirrors_query (g : goal) : mirrors (prolog_query T g) (prolog_query P g).
Proof.
  intros w. unfold prolog_query, on_env, erase, underlying. simpl.
  destruct (query P g (fst (env w))). split; reflexivity.
Qed.

Lemma mirrors_consult (path : string) :
  mirrors (on_env (consult T path)) (on_env (consult P path)).
Proof.
  intros w. unfold on_env, erase, underlying. simpl.
  destruct (consult P path (fst (env w))). split; reflexivity.
Qed.

Lemma mirrors_for_in {A : Type} (xs : list A)
    (bodyT : A -> Py T unit) (bodyP : A -> Py P unit) :
  (forall x, mirrors (bodyT x) (bodyP x)) ->
  mirrors (for_in xs bodyT) (for_in xs bodyP).
Proof.
  intros Hbody. induction xs as [|x xs IH]; simpl.
  - apply mirrors_ret.
  - apply mirrors_then; [ apply Hbody | exact IH ].
Qed.

Lemma mirrors_try_except {A : Type} (bT : Py T A) (bP : Py P A)
    (hT : exn -> option (Py T A)) (hP : exn -> option (Py P A)) :
  mirrors bT bP ->
  (forall e, match hT e, hP e with
             | Some kT, Some kP => mirrors kT kP
             | None, None => True
             | _, _ => False
             end) ->
  mirrors (try_except bT hT) (try_except bP hP).
Proof.
  intros Hb Hh w. unfold try_except. destruct (Hb w) as [Hout Hworld].
  destruct (bT w) as [[a|e] w1], (bP (erase w)) as [[a'|e'] w1'];
    simpl in *; try discriminate.
  - injection Hout as <-. subst w1'. split; reflexivity.
  - injection Hout as <-. subst w1'. specialize (Hh e).
    destruct (hT e), (hP e); try contradiction; [ apply Hh | split; reflexivity ].
Qed.

Lemma mirrors_subscript (sol : solution) (key : string) :
  mirrors (subscript T sol key) (subscript P sol key).
Proof.
  unfold subscript. destruct (dict_get sol key);
    [ apply mirrors_ret | apply mirrors_raise ].
Qed.

Lemma mirrors_iterate (t : term) : mirrors (iterate T t) (iterate P t).
Proof. destruct t; apply mirrors_ret. Qed.

Lemma mirrors_add_symptom (s : string) :
  mirrors (add_symptom T s) (add_symptom P s).
Proof.
  unfold add_symptom. apply mirrors_then;
    [ apply mirrors_query | apply mirrors_ret ].
Qed.

Lemma mirrors_clear_symptoms : mirrors (clear_symptoms T) (clear_symptoms P).
Proof.
  unfold clear_symptoms. apply mirrors_then;
    [ apply mirrors_query | apply mirrors_ret ].
Qed.

Lemma mirrors_run_triage : mirrors (run_triage T) (run_triage P).
Proof.
  unfold run_triage. apply mirrors_bind; [ apply mirrors_query | ].
  intros [|first rest]; [ apply mirrors_ret | ].
  apply mirrors_bind; [ apply mirrors_subscript | intros Level ].
  apply mirrors_bind; [ apply mirrors_subscript | intros Expl ].
  apply mirrors_bind; [ apply mirrors_iterate | intros items ].
  apply mirrors_ret.
Qed.

Lemma mirrors_run_triage_all_from (levels : list string)
    (acc : list (string * list string)) :
  mirrors (run_triage_all_from T levels acc) (run_triage_all_from P levels acc).
Proof.
  revert acc. induction levels as [|lv levels IH]; intros acc; simpl.
  - apply mirrors_ret.
  - apply mirrors_bind; [ apply mirrors_query | ].
    intros [|first rest]; [ apply IH | ].
    apply mirrors_bind; [ apply mirrors_subscript | intros Expl ].
    apply mirrors_bind; [ apply mirrors_iterate | intros items ].
    apply IH.
Qed.

Lemma mirrors_init (kb_path : string) :
  mirrors (TriageEngine_init T kb_path) (TriageEngine_init P kb_path).
Proof.
  unfold TriageEngine_init.
  apply mirrors_bind.
  { intros w. split; reflexivity. }
  intros resolved. apply mirrors_bind.
  { intros w. split; reflexivity. }
  intros found. destruct (negb found); [ apply mirrors_raise | ].
  apply mirrors_then; [ apply mirrors_consult | ].
  apply mirrors_then; [ apply mirrors_query | apply mirrors_ret ].
Qed.

Lemma mirrors_run_triage_for_symptoms (syms : list string) :
  mirrors (run_triage_for_symptoms T syms) (run_triage_for_symptoms P syms).
Proof.
  unfold run_triage_for_symptoms.
  apply mirrors_then; [ apply mirrors_init | ].
  apply mirrors_then; [ apply mirrors_for_in, mirrors_add_symptom | ].
  apply mirrors_bind; [ apply mirrors_run_triage | intros [lvl exps] ].
  apply mirrors_bind; [ | intros; apply mirrors_ret ].
  apply mirrors_try_except.
  - apply mirrors_bind; [ apply mirrors_run_triage_all_from | ].
    intros; apply mirrors_ret.
  - intros e. destruct (is_Exception e); [ apply mirrors_ret | exact I ].
Qed.

Ltac mirroring :=
  repeat first
    [ apply mirrors_print
    | apply mirrors_ret
    | apply mirrors_for_in; intros
    | apply mirrors_then ].

Lemma mirrors_display_triage_result (level : string) (exps : list string)
    (all_levels : option (list (string * list string))) :
  mirrors (display_triage_result T B level exps all_levels)
          (display_triage_result P B level exps all_levels).
Proof.
  unfold display_triage_result, display_other_levels.
  do 5 (apply mirrors_then; [ mirroring | ]).
  apply mirrors_then; [ | mirroring ].
  destruct all_levels as [levels|]; [ | mirroring ].
  destruct (1 <? length levels)%nat; [ | mirroring ].
  apply mirrors_then; [ mirroring | ].
  apply mirrors_for_in. intros entry.
  destruct (String.eqb (fst entry) level); mirroring.
Qed.

Lemma mirrors_assess : mirrors (assess T B) (assess P B).
Proof.
  unfold assess. apply mirrors_bind; [ apply mirrors_run_triage | intros result ].
  apply mirrors_bind.
  - apply mirrors_try_except.
    + apply mirrors_bind; [ apply mirrors_run_triage_all_from | ].
      intros; apply mirrors_ret.
    + intros e. destruct (is_Exception e); [ apply mirrors_ret | exact I ].
  - intros all_levels. apply mirrors_then;
      [ apply mirrors_display_triage_result | apply mirrors_print ].
Qed.

Lemma mirrors_process_entries (available : list (string * string))
    (entries : list string) (selected : list string) (flag : bool) :
  mirrors (process_entries T B available entries selected flag)
          (process_entries P B available entries selected flag).
Proof.
  revert selected flag.
  induction entries as [|entry rest IH]; intros selected flag; simpl.
  - apply mirrors_ret.
  - destruct (int_of_str B entry) as [num|].
    + destruct (num =? 0)%Z; [ apply IH | ].
      destruct (num =? -1)%Z.
      { apply mirrors_then; [ apply mirrors_clear_symptoms | ].
        apply mirrors_then; [ apply mirrors_print | apply IH ]. }
      destruct (num =? -2)%Z; [ mirroring | ].
      destruct ((1 <=? num)%Z && (num <=? Z.of_nat (length available))%Z).
      * cbv zeta. destruct (decide _).
        { apply mirrors_then; [ apply mirrors_print | apply IH ]. }
        apply mirrors_then; [ apply mirrors_add_symptom | ].
        apply mirrors_then; [ apply mirrors_print | apply IH ].
      * apply mirrors_then; [ apply mirrors_print | apply IH ].
    + destruct (matching available _) as [|s others].
      { apply mirrors_then; [ apply mirrors_print | apply IH ]. }
      destruct (decide (s ∈ selected)); [ apply IH | ].
      apply mirrors_then; [ apply mirrors_add_symptom | ].
      apply mirrors_then; [ apply mirrors_print | apply IH ].
Qed.

Lemma mirrors_menu_loop_bounded (available : list (string * string))
    (n : nat) (keys : list keyboard) (selected : list string) :
  length keys <= n ->
  mirrors (menu_loop T B available keys selected)
          (menu_loop P B available keys selected).
Proof.
  revert keys selected.
  induction n as [|n IH]; intros keys selected Hlen.
  - destruct keys as [|k keys1]; [ | simpl in Hlen; lia ].
    simpl. unfold show_selected, display_symptom_menu, write_prompt.
    destruct selected; mirroring.
  - destruct keys as [|[text|] keys1]; simpl.
    + unfold show_selected, display_symptom_menu, write_prompt.
      destruct selected; mirroring.
    + simpl in Hlen.
      apply mirrors_then;
        [ unfold show_selected; destruct selected; mirroring | ].
      apply mirrors_then; [ unfold display_symptom_menu; mirroring | ].
      apply mirrors_then; [ apply mirrors_print | ].
      destruct (String.eqb (str_strip B text) ""); [ apply IH; lia | ].
      apply mirrors_bind; [ apply mirrors_process_entries | ].
      intros [selected' flag|]; [ | apply mirrors_ret ].
      destruct selected' as [|s selected'], flag; try (apply IH; lia).
      { apply mirrors_then; [ apply mirrors_print | apply IH; lia ]. }
      apply mirrors_then; [ apply mirrors_assess | ].
      apply mirrors_then; [ apply mirrors_print | ].
      destruct keys1 as [|[answer|] keys2]; try apply mirrors_print.
      destruct (_ || _); [ | apply mirrors_print ].
      apply mirrors_then; [ apply mirrors_clear_symptoms | ].
      apply mirrors_then; [ apply mirrors_print | ].
      apply IH. simpl in Hlen. lia.
    + unfold show_selected, display_symptom_menu, write_prompt.
      destruct selected; mirroring.
Qed.

End Transparent.

Lemma replace_char_absent (a b : ascii) (s : string) :
  a <> b -> a ∉ list_ascii_of_string (replace_char a b s).
Proof.
  intros Hab. induction s as [|c s IH]; simpl.
  - apply not_elem_of_nil.
  - apply not_elem_of_cons. split; [ | exact IH ].
    destruct (Ascii.eqb_spec c a); congruence.
Qed.

(** One round of the loop of [run_triage_all], then the others. *)
Lemma run_triage_all_from_round (P : Platform) (lv : string)
    (rest : list string) (acc : list (string * list string)) (w : World P) :
  run_triage_all_from P (lv :: rest) acc w =
  match run_triage_all_from P [lv] acc w with
  | (Return acc', w1) => run_triage_all_from P rest acc' w1
  | (Raise e, w1) => (Raise e, w1)
  end.
Proof.
  simpl. rewrite !bind_run.
  destruct (prolog_query P (fired_rules_goal lv) w) as [[results|e] w1];
    [ | reflexivity ].
  destruct results as [|first others]; [ reflexivity | ].
  rewrite !bind_run.
  destruct (subscript P first "Explanations" w1) as [[Expl|e] w2];
    [ | reflexivity ].
  rewrite !bind_run.
  destruct (iterate P Expl w2) as [[items|e] w3]; reflexivity.
Qed.

(** A round logs its query, whatever its outcome. *)
Lemma run_triage_all_from_round_logs (P : Platform) (lv : string)
    (acc : list (string * list string)) (w : World (traced P)) :
  calls (snd (run_triage_all_from (traced P) [lv] acc w))
  = calls w ++ [Query (fired_rules_goal lv)].
Proof.
  cbn [run_triage_all_from]. rewrite bind_run.
  assert (Hq : calls (snd (prolog_query (traced P) (fired_rules_goal lv) w))
               = calls w ++ [Query (fired_rules_goal lv)]) by reflexivity.
  destruct (prolog_query (traced P) (fired_rules_goal lv) w)
    as [[results|e] w1]; simpl in Hq; [ | exact Hq ].
  destruct results as [|first others]; [ exact Hq | ].
  rewrite bind_run. unfold subscript.
  destruct (dict_get first "Explanations") as [Expl|];
    cbv [mret Py_ret raise]; cbv beta iota; [ | exact Hq ].
  rewrite bind_run.
  destruct Expl; cbv [iterate mret Py_ret]; cbv beta iota; exact Hq.
Qed.

(** Where the loop of [run_triage_all] raises: the rounds before have
    returned, the round of one level raises, and the queries sent are
    those of the levels up to this one. *)
Lemma run_triage_all_from_raise_point (P : Platform) (levels : list string)
    (acc : list (string * list string)) (w w' : World (traced P)) (e : exn) :
  run_triage_all_from (traced P) levels acc w = (Raise e, w') ->
  exists (pre : list string) (lv : string) (post : list string)
         (acc' : list (string * list string)) (wk : World (traced P)),
    levels = pre ++ lv :: post
    /\ run_triage_all_from (traced P) pre acc w = (Return acc', wk)
    /\ run_triage_all_from (traced P) [lv] acc' wk = (Raise e, w')
    /\ calls w' = calls w ++ level_queries (pre ++ [lv]).
Proof.
  revert acc w. induction levels as [|lv0 rest IH]; intros acc w Hrun.
  - discriminate Hrun.
  - rewrite run_triage_all_from_round in Hrun.
    pose proof (run_triage_all_from_round_logs P lv0 acc w) as Hlog.
    destruct (run_triage_all_from (traced P) [lv0] acc w)
      as [[acc1|e1] w1] eqn:Hround.
    + destruct (IH _ _ Hrun) as (pre & lv & post & acc' & wk
                                 & -> & Hpre & Hlv & Hcalls).
      exists (lv0 :: pre), lv, post, acc', wk.
      split; [ reflexivity | ]. split; [ | split; [ exact Hlv | ] ].
      * rewrite run_triage_all_from_round, Hround. exact Hpre.
      * rewrite Hcalls. simpl in Hlog. rewrite Hlog.
        rewrite <- (assoc_L (++)). reflexivity.
    + injection Hrun as <- <-.
      exists [], lv0, rest, acc, w.
      split; [ reflexivity | ]. split; [ reflexivity | ].
      split; [ exact Hround | exact Hlog ].
Qed.

(** X7.  [run_triage_all] asks for the fired rules of critical, urgent,
    moderate and low, in this order.  When it returns it has sent exactly
    these four queries, also after a level has matched.  When it raises,
    the rounds of the levels before some level have returned, the round
    of that level raises the exception, and exactly the queries of the
    levels up to and including that one were sent: no later level is
    asked for.  (Stated on a platform that logs its calls; logging does
    not change the outcome.) *)
Theorem run_triage_all_queries_every_level (P : Platform) (w : World (traced P)) :
  fst (run_triage_all (traced P) w) = fst (run_triage_all P (erase w))
  /\ (forall (all_levels : list (string * list string)) (w' : World (traced P)),
        run_triage_all (traced P) w = (Return all_levels, w') ->
        calls w' = calls w ++ breakdown_queries)
  /\ (forall (e : exn) (w' : World (traced P)),
        run_triage_all (traced P) w = (Raise e, w') ->
        exists (pre : list string) (lv : string) (post : list string)
               (acc : list (string * list string)) (wk : World (traced P)),
          ["critical"; "urgent"; "moderate"; "low"] = pre ++ lv :: post
          /\ run_triage_all_from (traced P) pre [] w = (Return acc, wk)
          /\ run_triage_all_from (traced P) [lv] acc wk = (Raise e, w')
          /\ calls w' = calls w ++ level_queries (pre ++ [lv])).
Proof.
  split; [ apply (mirrors_run_triage_all_from P _ [] w) | ]. split.
  - intros all_levels w' Hrun.
    destruct (sends_run_triage_all_from P
                ["critical"; "urgent"; "moderate"; "low"] [] w)
      as (l & Hlog & _ & Hret).
    fold (run_triage_all (traced P)) in Hlog, Hret.
    rewrite Hrun in Hlog, Hret. simpl in Hlog.
    rewrite Hlog, (Hret all_levels eq_refl). reflexivity.
  - intros e w' Hrun.
    apply (run_triage_all_from_raise_point P _ [] w w' e Hrun).
Qed.

(** X8.  [run_triage_for_symptoms] uses Prolog by a fixed script: consult
    the knowledge base, clear the symptoms, add each given symptom in the
    order given, evaluate, then ask for the four breakdowns.  What it
    sends is always a prefix of this script; when it returns, the script
    was followed at least up to the evaluation, and to its end when
    [all_levels] is not empty.  (Stated on a platform that logs its
    calls; logging does not change the outcome.) *)
Theorem run_triage_for_symptoms_call_script
    (P : Platform) (syms : list string) (w : World (traced P)) :
  fst (run_triage_for_symptoms (traced P) syms w)
    = fst (run_triage_for_symptoms P syms (erase w))
  /\ exists l : list call,
       calls (snd (run_triage_for_symptoms (traced P) syms w)) = calls w ++ l
       /\ l `prefix_of` api_script P (underlying w) syms
       /\ (forall r,
             fst (run_triage_for_symptoms (traced P) syms w) = Return r ->
             api_script_evaluated P (underlying w) syms `prefix_of` l
             /\ (all_levels r <> [] ->
                 l = api_script P (underlying w) syms)).
Proof.
  split; [ apply (mirrors_run_triage_for_symptoms P syms w) | ].
  unfold run_triage_for_symptoms, api_script, api_script_evaluated.
  apply (sends_bind P _ _ w _ _ _ (sends_init P (KB_PATH (traced P)) w)).
  intros [] w1 _.
  apply (sends_bind P _ _ w1 _ _ _ (sends_for_in_add P syms w1)).
  intros [] w2 _.
  apply (sends_bind P _ _ w2 _ _ _ (sends_run_triage P w2)).
  intros [lvl exps] w3 _. cbv beta iota.
  eapply logs_weaken;
    [ apply (logs_then_ret P _ _ w3 _ _ (logs_guarded_breakdown P w3)) | ].
  intros r l (d & -> & Hd). simpl. split.
  - exists l. simpl. rewrite <- (assoc_L (++)). reflexivity.
  - intros Hne. rewrite (Hd Hne). reflexivity.
Qed.

(** X9.  [TriageEngine.__init__] consults the knowledge base by its
    resolved path with every backslash replaced by a slash, so no
    backslash ever reaches Prolog.  What it sends to Prolog is exactly
    this: nothing when the file does not exist; the consult and then the
    clearing of the symptoms when the consult returns; the consult alone
    when the consult raises, and the constructor then raises the same
    exception.  (Stated on a platform that logs its calls; logging does
    not change the outcome.) *)
Theorem init_consults_then_clears
    (P : Platform) (kb_path : string) (w : World (traced P)) :
  ("\"%char ∉ list_ascii_of_string (consulted_path P kb_path (underlying w)))
  /\ fst (TriageEngine_init (traced P) kb_path w)
     = fst (TriageEngine_init P kb_path (erase w))
  /\ calls (snd (TriageEngine_init (traced P) kb_path w))
     = calls w ++
       (if path_exists P kb_path (underlying w) then
          Consult (consulted_path P kb_path (underlying w)) ::
          match fst (consult P (consulted_path P kb_path (underlying w))
                       (underlying w)) with
          | Return _ => [Query clear_symptoms_goal]
          | Raise _ => []
          end
        else [])
  /\ (forall e : exn,
        path_exists P kb_path (underlying w) = true ->
        fst (consult P (consulted_path P kb_path (underlying w))
               (underlying w)) = Raise e ->
        fst (TriageEngine_init (traced P) kb_path w) = Raise e).
Proof.
  split; [ apply replace_char_absent; discriminate | ].
  split; [ apply (mirrors_init P kb_path w) | ].
  unfold consulted_path, TriageEngine_init, prolog_query, on_env, underlying,
    calls.
  destruct w as [[e log] out].
  cbv [mbind mret Py_bind Py_ret raise env stdout]. simpl.
  destruct (path_exists P kb_path e); simpl.
  - destruct (consult P _ e) as [[a|e1] e2]; simpl.
    + split; [ | intros e0 _ Hraise; discriminate Hraise ].
      destruct (query P clear_symptoms_goal e2) as [[sols|e0] e3]; simpl;
        rewrite <- (assoc_L (++)); reflexivity.
    + split; [ reflexivity | ]. intros e0 _ Hraise. exact Hraise.
  - split; [ rewrite (right_id_L [] (++)); reflexivity | ].
    intros e0 Hexists. discriminate Hexists.
Qed.

(** ** [run_interactive]: start-up (any platform) *)

(** X10.  When the engine construction raises an exception derived from
    [Exception], [run_interactive] prints one error line, "ERROR: ..." for
    a [FileNotFoundError] and "ERROR initializing Prolog engine: ..."
    otherwise, and ends in [sys.exit(1)]; a [KeyboardInterrupt] or
    [SystemExit] out of the construction is not caught and leaves
    [run_interactive] as it is.  The menu loop is not reached. *)
Theorem run_interactive_startup_failure
    (P : Platform) (menu_loop : list (string * string) -> Py P unit)
    (w w1 : World P) (e : exn) :
  TriageEngine_init P (KB_PATH P) (printed w greeting) = (Raise e, w1) ->
  run_interactive P menu_loop w =
    if is_Exception e
    then (Raise (SystemExit 1), printed w1 [startup_error e])
    else (Raise e, w1).
Proof.
  intros Hinit. unfold run_interactive, print_banner, print_disclaimer.
  rewrite (bind_returns _ _ _ _ _ (print_run P _ w)).
  rewrite (bind_returns _ _ _ _ _ (print_run P _ _)).
  rewrite printed_printed. change (printed w _) with (printed w greeting).
  rewrite bind_run. unfold try_except. rewrite Hinit.
  unfold startup_error.
  destruct e; simpl; try reflexivity.
Qed.

Lemma run_interactive_startup_failure_witness :
  run_interactive app_platform (fun _ => mret tt) (boot (installed malformed_kb))
  = (Raise (SystemExit 1),
     printed (printed (boot (installed malformed_kb)) greeting)
       [startup_error (ConfigurationError "malformed rule catalog")]).
Proof.
  apply (run_interactive_startup_failure app_platform (fun _ => mret tt)
           (boot (installed malformed_kb))
           (printed (boot (installed malformed_kb)) greeting)
           (ConfigurationError "malformed rule catalog")).
  vm_compute. reflexivity.
Defined.

(** X11.  When the engine is constructed but the knowledge base lists no
    symptom, [run_interactive] prints a warning and ends in
    [sys.exit(1)] without reaching the menu loop. *)
Theorem run_interactive_without_symptoms
    (P : Platform) (menu_loop : list (string * string) -> Py P unit)
    (w w1 w2 : World P) :
  TriageEngine_init P (KB_PATH P) (printed w greeting) = (Return tt, w1) ->
  get_available_symptoms P w1 = (Return [], w2) ->
  run_interactive P menu_loop w =
    (Raise (SystemExit 1),
     printed w2 ["WARNING: No available symptoms loaded from knowledge base."]).
Proof.
  intros Hinit Havailable. unfold run_interactive, print_banner, print_disclaimer.
  rewrite (bind_returns _ _ _ _ _ (print_run P _ w)).
  rewrite (bind_returns _ _ _ _ _ (print_run P _ _)).
  rewrite printed_printed. change (printed w _) with (printed w greeting).
  rewrite bind_run. rewrite (try_except_returns _ _ _ _ _ Hinit).
  rewrite (bind_returns _ _ _ _ _ Havailable).
  rewrite (bind_returns _ _ _ _ _ (print_run P _ _)). reflexivity.
Qed.

Lemma run_interactive_without_symptoms_witness :
  run_interactive app_platform (fun _ => mret tt) (boot (installed empty_kb))
  = (Raise (SystemExit 1),
     printed (printed (boot (consulted empty_kb [])) greeting)
       ["WARNING: No available symptoms loaded from knowledge base."]).
Proof.
  apply (run_interactive_without_symptoms app_platform (fun _ => mret tt)
           (boot (installed empty_kb))
           (printed (boot (consulted empty_kb [])) greeting)
           (printed (boot (consulted empty_kb [])) greeting)).
  - vm_compute. reflexivity.
  - vm_compute. reflexivity.
Defined.

(** ** The menu loop (any platform, any built-ins) *)

Lemma matching_listed (available : list (string * string)) (key s : string) :
  s ∈ matching available key -> s ∈ map fst available.
Proof.
  unfold matching. rewrite !list_elem_of_In, !in_map_iff.
  intros (sd & <- & Hin). apply filter_In in Hin as [Hin _].
  exists sd. split; [ reflexivity | exact Hin ].
Qed.

Lemma numbered_item_listed (available : list (string * string)) (num : Z) :
  ((1 <=? num)%Z && (num <=? Z.of_nat (length available))%Z) = true ->
  fst (nth (Z.to_nat (num - 1)) available ("", "")) ∈ map fst available.
Proof.
  intros Hbounds. apply andb_prop in Hbounds as [Hlo Hhi].
  apply Z.leb_le in Hlo, Hhi.
  apply list_elem_of_In, in_map, nth_In. lia.
Qed.

Section Selection.

Context (P : Platform) (B : Builtins) (available : list (string * string)).

Lemma selection_grows (selected : list string) (s : string) :
  NoDup selected -> selected ⊆ map fst available ->
  s ∉ selected -> s ∈ map fst available ->
  NoDup (selected ++ [s]) /\ selected ++ [s] ⊆ map fst available.
Proof.
  intros Hnd Hsub Hfresh Hlisted. split.
  - apply NoDup_app. split; [ exact Hnd | ]. split; [ | apply NoDup_singleton ].
    intros x Hx ->%list_elem_of_singleton. done.
  - intros x Hx. apply elem_of_app in Hx as [Hx|Hx].
    + apply Hsub, Hx.
    + apply list_elem_of_singleton in Hx as ->. exact Hlisted.
Qed.

(** X12.  The entries of a line keep the selection well formed: from a
    selection without duplicate made of listed symptoms, what
    [process_entries] hands on is again without duplicate and made of
    listed symptoms, whatever was typed. *)
Theorem process_entries_keeps_selection
    (entries : list string) (selected selected' : list string)
    (flag flag' : bool) (w w' : World P) :
  NoDup selected ->
  selected ⊆ map fst available ->
  process_entries P B available entries selected flag w
    = (Return (Continue selected' flag'), w') ->
  NoDup selected' /\ selected' ⊆ map fst available.
Proof.
  revert selected flag w.
  induction entries as [|entry rest IH]; intros selected flag w Hnd Hsub Hrun.
  - injection Hrun as <- <- <-. split; assumption.
  - simpl in Hrun. destruct (int_of_str B entry) as [num|].
    + destruct (num =? 0)%Z; [ apply (IH _ _ _ Hnd Hsub Hrun) | ].
      destruct (num =? -1)%Z.
      { rewrite bind_run in Hrun.
        destruct (clear_symptoms P w) as [[[]|e] w1]; [ | discriminate ].
        cbv beta iota in Hrun.
        rewrite (bind_returns _ _ _ _ _ (print_run P _ w1)) in Hrun.
        apply (IH _ _ _ (NoDup_nil_2) (list_subseteq_nil _) Hrun). }
      destruct (num =? -2)%Z.
      { rewrite (bind_returns _ _ _ _ _ (print_run P _ w)) in Hrun.
        discriminate. }
      destruct ((1 <=? num)%Z && (num <=? Z.of_nat (length available))%Z)
        eqn:Hbounds.
      * cbv zeta in Hrun.
        destruct (decide (fst (nth (Z.to_nat (num - 1)) available ("", ""))
                          ∈ selected)) as [Hin|Hfresh].
        { rewrite (bind_returns _ _ _ _ _ (print_run P _ w)) in Hrun.
          apply (IH _ _ _ Hnd Hsub Hrun). }
        rewrite bind_run in Hrun.
        destruct (add_symptom P _ w) as [[[]|e] w1]; [ | discriminate ].
        cbv beta iota in Hrun.
        rewrite (bind_returns _ _ _ _ _ (print_run P _ w1)) in Hrun.
        destruct (selection_grows selected _ Hnd Hsub Hfresh
                    (numbered_item_listed available num Hbounds))
          as [Hnd' Hsub'].
        apply (IH _ _ _ Hnd' Hsub' Hrun).
      * rewrite (bind_returns _ _ _ _ _ (print_run P _ w)) in Hrun.
        apply (IH _ _ _ Hnd Hsub Hrun).
    + destruct (matching available _) as [|s others] eqn:Hmatch.
      { rewrite (bind_returns _ _ _ _ _ (print_run P _ w)) in Hrun.
        apply (IH _ _ _ Hnd Hsub Hrun). }
      destruct (decide (s ∈ selected)) as [Hin|Hfresh];
        [ apply (IH _ _ _ Hnd Hsub Hrun) | ].
      rewrite bind_run in Hrun.
      destruct (add_symptom P s w) as [[[]|e] w1]; [ | discriminate ].
      cbv beta iota in Hrun.
      rewrite (bind_returns _ _ _ _ _ (print_run P _ w1)) in Hrun.
      assert (Hlisted : s ∈ map fst available).
      { apply (matching_listed available
                 (replace_char " " "_" (str_lower B entry))).
        rewrite Hmatch. left. }
      destruct (selection_grows selected s Hnd Hsub Hfresh Hlisted)
        as [Hnd' Hsub'].
      apply (IH _ _ _ Hnd' Hsub' Hrun).
Qed.

End Selection.

Lemma process_entries_keeps_selection_witness :
  NoDup ["fever"; "cough"]
  /\ ["fever"; "cough"] ⊆ map fst (Kb.symptom_table triage_kb).
Proof.
  apply (process_entries_keeps_selection app_platform ascii_builtins
           (Kb.symptom_table triage_kb)
           ["fever"; "14"; "COUGH"; "nonsense"; "15"] [] ["fever"; "cough"]
           false false
           (boot (consulted triage_kb []))
           (printed (boot (consulted triage_kb ["fever"; "cough"]))
              ["  ✓ Added: Fever"; "  ⓘ Already selected: Fever";
               "  ✓ Added: Cough"; "  ✗ Unknown input: 'nonsense'";
               "  ⓘ Already selected: Cough"])).
  - apply NoDup_nil_2.
  - apply list_subseteq_nil.
  - vm_compute. reflexivity.
Defined.

Section Guard.

Context (P : Platform) (B : Builtins) (available : list (string * string)).

Local Abbreviation T := (traced P).
Local Abbreviation allowed := (menu_call available).

Lemma only_logs_bind {A C : Type} (m : Py T A) (f : A -> Py T C) (w : World T)
    (ok : call -> Prop) :
  only_logs m w ok ->
  (forall a w1, m w = (Return a, w1) -> only_logs (f a) w1 ok) ->
  only_logs (m ≫= f) w ok.
Proof.
  intros (l1 & Hl1 & Hok1) Hf. unfold only_logs. rewrite bind_run.
  destruct (m w) as [[a|e] w1]; simpl in *.
  - destruct (Hf a w1 eq_refl) as (l2 & Hl2 & Hok2).
    exists (l1 ++ l2). split.
    + rewrite Hl2, Hl1, (assoc_L (++)). reflexivity.
    + apply Forall_app. split; assumption.
  - exists l1. split; assumption.
Qed.

Lemma only_logs_silent {A : Type} (m : Py T A) (w : World T)
    (ok : call -> Prop) :
  calls (snd (m w)) = calls w -> only_logs m w ok.
Proof.
  intros Hsame. exists []. split; [ | apply Forall_nil_2 ].
  rewrite Hsame, (right_id_L [] (++)). reflexivity.
Qed.

Lemma only_logs_ret {A : Type} (a : A) (w : World T) (ok : call -> Prop) :
  only_logs (mret a) w ok.
Proof. apply only_logs_silent. reflexivity. Qed.

Lemma only_logs_print (text : string) (w : World T) (ok : call -> Prop) :
  only_logs (print T text) w ok.
Proof. apply only_logs_silent. reflexivity. Qed.

Lemma only_logs_sends {A : Type} (m : Py T A) (w : World T)
    (script : list call) (ok : call -> Prop) :
  sends m w script -> Forall ok script -> only_logs m w ok.
Proof.
  intros (l & Hl & [k ->] & _) Hok. exists l. split; [ exact Hl | ].
  apply Forall_app in Hok as [Hok _]. exact Hok.
Qed.

Lemma only_logs_for_in {A : Type} (xs : list A) (body : A -> Py T unit)
    (w : World T) (ok : call -> Prop) :
  (forall x w1, only_logs (body x) w1 ok) -> only_logs (for_in xs body) w ok.
Proof.
  intros Hbody. revert w. induction xs as [|x xs IH]; intros w; simpl.
  - apply only_logs_ret.
  - apply only_logs_bind; [ apply Hbody | ]. intros _ w1 _. apply IH.
Qed.

Lemma only_logs_then {A C : Type} (m : Py T A) (k : Py T C) (w : World T)
    (ok : call -> Prop) :
  only_logs m w ok -> (forall w1, only_logs k w1 ok) -> only_logs (m ;; k) w ok.
Proof. intros Hm Hk. apply only_logs_bind; [ exact Hm | ]. intros; apply Hk. Qed.

Ltac silent :=
  repeat first
    [ apply only_logs_print
    | apply only_logs_ret
    | apply only_logs_for_in; intros
    | apply only_logs_then; [ | intros ] ].

Lemma display_symptom_menu_silent (w : World T) (ok : call -> Prop) :
  only_logs (display_symptom_menu T available) w ok.
Proof. unfold display_symptom_menu. silent. Qed.

Lemma show_selected_silent (selected : list string) (w : World T)
    (ok : call -> Prop) :
  only_logs (show_selected T available selected) w ok.
Proof. unfold show_selected. destruct selected; silent. Qed.

Lemma display_triage_result_silent (level : string) (exps : list string)
    (all_levels : option (list (string * list string))) (w : World T)
    (ok : call -> Prop) :
  only_logs (display_triage_result T B level exps all_levels) w ok.
Proof.
  unfold display_triage_result, display_other_levels.
  do 5 (apply only_logs_then; [ silent | intros ]).
  apply only_logs_then; [ | intros; silent ].
  destruct all_levels as [levels|]; [ | silent ].
  destruct (1 <? length levels)%nat; [ | silent ].
  apply only_logs_then; [ silent | intros ].
  apply only_logs_for_in. intros entry w_entry.
  destruct (String.eqb (fst entry) level); silent.
Qed.

Lemma add_listed_allowed (s : string) (w : World T) :
  s ∈ map fst available -> only_logs (add_symptom T s) w allowed.
Proof.
  intros Hlisted. apply (only_logs_sends _ _ _ _ (sends_add_symptom P s w)).
  apply Forall_singleton. exact Hlisted.
Qed.

Lemma clear_allowed (w : World T) : only_logs (clear_symptoms T) w allowed.
Proof.
  apply (only_logs_sends _ _ [Query clear_symptoms_goal]).
  - unfold clear_symptoms. apply sends_then_quiet; [ apply sends_query | ].
    intros. apply sends_ret.
  - apply Forall_singleton. exact I.
Qed.

Lemma breakdown_queries_allowed : Forall allowed breakdown_queries.
Proof.
  unfold breakdown_queries. simpl.
  repeat (apply Forall_cons; split; [ simpl; rewrite !elem_of_cons; tauto | ]).
  apply Forall_nil_2.
Qed.

Lemma assess_allowed (w : World T) : only_logs (assess T B) w allowed.
Proof.
  unfold assess. apply only_logs_bind.
  { apply (only_logs_sends _ _ _ _ (sends_run_triage P w)).
    apply Forall_singleton. exact I. }
  intros result w1 _. apply only_logs_bind.
  - assert (Hbody : only_logs (levels ← run_triage_all T; mret (Some levels))
                              w1 allowed).
    { apply only_logs_bind; [ | intros; apply only_logs_ret ].
      apply (only_logs_sends _ _ _ _ (sends_run_triage_all_from P _ [] w1)).
      apply breakdown_queries_allowed. }
    destruct Hbody as (l & Hl & Hok). unfold only_logs, try_except.
    destruct ((levels ← run_triage_all T; mret (Some levels)) w1)
      as [[r|e] w2]; simpl in *.
    + exists l. split; assumption.
    + destruct (is_Exception e); exists l; split; assumption.
  - intros all_levels w2 _. apply only_logs_then.
    + apply display_triage_result_silent.
    + intros w3. apply only_logs_print.
Qed.

Lemma process_entries_allowed (entries : list string)
    (selected : list string) (flag : bool) (w : World T) :
  only_logs (process_entries T B available entries selected flag) w allowed.
Proof.
  revert selected flag w.
  induction entries as [|entry rest IH]; intros selected flag w; simpl.
  - apply only_logs_ret.
  - destruct (int_of_str B entry) as [num|].
    + destruct (num =? 0)%Z; [ apply IH | ].
      destruct (num =? -1)%Z.
      { apply only_logs_then; [ apply clear_allowed | intros ].
        apply only_logs_then; [ apply only_logs_print | intros; apply IH ]. }
      destruct (num =? -2)%Z; [ silent | ].
      destruct ((1 <=? num)%Z && (num <=? Z.of_nat (length available))%Z)
        eqn:Hbounds.
      * cbv zeta. destruct (decide _).
        { apply only_logs_then; [ apply only_logs_print | intros; apply IH ]. }
        apply only_logs_then;
          [ apply add_listed_allowed, numbered_item_listed, Hbounds | intros ].
        apply only_logs_then; [ apply only_logs_print | intros; apply IH ].
      * apply only_logs_then; [ apply only_logs_print | intros; apply IH ].
    + destruct (matching available _) as [|s others] eqn:Hmatch.
      { apply only_logs_then; [ apply only_logs_print | intros; apply IH ]. }
      destruct (decide (s ∈ selected)); [ apply IH | ].
      apply only_logs_then.
      * apply add_listed_allowed.
        apply (matching_listed available
                 (replace_char " " "_" (str_lower B entry))).
        rewrite Hmatch. left.
      * intros. apply only_logs_then; [ apply only_logs_print | intros; apply IH ].
Qed.

Ltac loop_head :=
  apply only_logs_then; [ apply show_selected_silent | intros ? ];
  apply only_logs_then; [ apply display_symptom_menu_silent | intros ? ];
  apply only_logs_then; [ apply only_logs_print | intros ? ].

Lemma menu_loop_allowed_bounded (n : nat) (keys : list keyboard)
    (selected : list string) (w : World T) :
  length keys <= n ->
  only_logs (menu_loop T B available keys selected) w allowed.
Proof.
  revert keys selected w.
  induction n as [|n IH]; intros keys selected w Hlen.
  - destruct keys as [|k keys1]; [ | simpl in Hlen; lia ].
    simpl. loop_head. apply only_logs_print.
  - destruct keys as [|[text|] keys1]; simpl.
    + loop_head. apply only_logs_print.
    + loop_head. simpl in Hlen.
      destruct (String.eqb (str_strip B text) ""); [ apply IH; lia | ].
      apply only_logs_bind; [ apply process_entries_allowed | ].
      intros [selected' flag|] w4 _; [ | apply only_logs_ret ].
      destruct selected' as [|s selected'], flag; try (apply IH; lia).
      { apply only_logs_then; [ apply only_logs_print | intros; apply IH; lia ]. }
      apply only_logs_then; [ apply assess_allowed | intros w5 ].
      apply only_logs_then; [ apply only_logs_print | intros w6 ].
      destruct keys1 as [|[answer|] keys2]; try apply only_logs_print.
      destruct (_ || _); [ | apply only_logs_print ].
      apply only_logs_then; [ apply clear_allowed | intros w7 ].
      apply only_logs_then; [ apply only_logs_print | intros w8 ].
      apply IH. simpl in Hlen. lia.
    + loop_head. apply only_logs_print.
Qed.

(** X13.  Whatever is typed, the menu loop sends to Prolog only
    [add_symptom] goals for symptoms that are on the menu,
    [clear_symptoms], the evaluation and the four breakdown queries:
    text typed by the user never reaches Prolog unless it names a listed
    symptom, and nothing is ever removed or consulted.  (Stated on a
    platform that logs its calls; logging does not change the outcome.) *)
Theorem menu_loop_sends_listed_symptoms_only
    (keys : list keyboard) (selected : list string) (w : World T) :
  fst (menu_loop T B available keys selected w)
    = fst (menu_loop P B available keys selected (erase w))
  /\ exists l : list call,
       calls (snd (menu_loop T B available keys selected w)) = calls w ++ l
       /\ Forall (menu_call available) l.
Proof.
  split.
  - apply (mirrors_menu_loop_bounded P B available (length keys) keys selected
             (le_n _) w).
  - apply (menu_loop_allowed_bounded (length keys)). reflexivity.
Qed.

End Guard.

Lemma bind_ext {P : Platform} {A C : Type} (m : Py P A) (f g : A -> Py P C)
    (w : World P) :
  (forall a w1, f a w1 = g a w1) -> (m ≫= f) w = (m ≫= g) w.
Proof.
  intros Hfg. rewrite !bind_run. destruct (m w) as [[a|e] w1];
    [ apply Hfg | reflexivity ].
Qed.

Section Entries.

Context (P : Platform) (B : Builtins) (available : list (string * string)).

(** X14.  Entry [-2] ends the line: whatever is typed after it on the
    same line is ignored, as if the line had ended there. *)
Theorem quit_ends_the_line
    (q : string) (pre post : list string) (selected : list string)
    (flag : bool) (w : World P) :
  int_of_str B q = Some (-2)%Z ->
  process_entries P B available (pre ++ q :: post) selected flag w
  = process_entries P B available (pre ++ [q]) selected flag w.
Proof.
  intros Hquit. revert selected flag w.
  induction pre as [|entry pre IH]; intros selected flag w; simpl.
  - rewrite Hquit. reflexivity.
  - destruct (int_of_str B entry) as [num|].
    + destruct (num =? 0)%Z; [ apply IH | ].
      destruct (num =? -1)%Z.
      { apply bind_ext. intros _ w1. apply bind_ext. intros _ w2. apply IH. }
      destruct (num =? -2)%Z; [ reflexivity | ].
      destruct ((1 <=? num)%Z && (num <=? Z.of_nat (length available))%Z).
      * cbv zeta. destruct (decide _).
        { apply bind_ext. intros _ w1. apply IH. }
        apply bind_ext. intros _ w1. apply bind_ext. intros _ w2. apply IH.
      * apply bind_ext. intros _ w1. apply IH.
    + destruct (matching available _) as [|s others].
      { apply bind_ext. intros _ w1. apply IH. }
      destruct (decide (s ∈ selected)); [ apply IH | ].
      apply bind_ext. intros _ w1. apply bind_ext. intros _ w2. apply IH.
Qed.

End Entries.

Lemma quit_ends_the_line_witness :
  process_entries app_platform ascii_builtins (Kb.symptom_table triage_kb)
    (["fever"] ++ "-2" :: ["cough"; "0"]) [] false
    (boot (consulted triage_kb []))
  = process_entries app_platform ascii_builtins (Kb.symptom_table triage_kb)
      (["fever"] ++ ["-2"]) [] false (boot (consulted triage_kb [])).
Proof.
  apply (quit_ends_the_line app_platform ascii_builtins
           (Kb.symptom_table triage_kb) "-2" ["fever"] ["cough"; "0"]).
  reflexivity.
Defined.

(** ** The menu and the numbers typed *)

Lemma for_in_print (P : Platform) {A : Type} (line : A -> string)
    (xs : list A) (w : World P) :
  for_in xs (fun x => print P (line x)) w = (Return tt, printed w (map line xs)).
Proof.
  revert w. induction xs as [|x xs IH]; intros w; simpl.
  - unfold printed. rewrite (right_id_L [] (++)). destruct w; reflexivity.
  - rewrite (bind_returns _ _ _ _ _ (print_run P _ w)), IH, printed_printed.
    reflexivity.
Qed.

Lemma enumerate_lookup {A : Type} (start k : nat) (xs : list A) (x : A) :
  xs !! k = Some x -> enumerate start xs !! k = Some (start + k, x).
Proof.
  revert start k. induction xs as [|y xs IH]; intros start k Hk; [ done | ].
  destruct k as [|k]; simpl in *.
  - injection Hk as ->. rewrite Nat.add_0_r. reflexivity.
  - rewrite (IH (S start) k Hk). f_equal. f_equal. lia.
Qed.

Lemma enumerate_length {A : Type} (start : nat) (xs : list A) :
  length (enumerate start xs) = length xs.
Proof.
  revert start. induction xs as [|y xs IH]; intros start; simpl;
    [ | rewrite IH ]; reflexivity.
Qed.

Lemma display_symptom_menu_lines (P : Platform)
    (symptoms : list (string * string)) (w : World P) :
  display_symptom_menu P symptoms w =
  (Return tt,
   printed w
     ([ "
" +:+ BOLD +:+ "Available Symptoms:" +:+ RESET_COLOR;
        repeat_string "-" 50 ]
      ++ map (fun item => menu_item_line (fst item) (fst (snd item))
                            (snd (snd item)))
             (enumerate 1 symptoms)
      ++ [ repeat_string "-" 50;
           "  " +:+ BOLD +:+ " 0.  Done — Run triage" +:+ RESET_COLOR;
           "  " +:+ BOLD +:+ "-1.  Clear all symptoms" +:+ RESET_COLOR;
           "  " +:+ BOLD +:+ "-2.  Quit" +:+ RESET_COLOR;
           "" ])).
Proof.
  unfold display_symptom_menu.
  rewrite (bind_returns _ _ _ _ _ (print_run P _ w)).
  rewrite (bind_returns _ _ _ _ _ (print_run P _ _)).
  rewrite (bind_returns _ _ _ _ _
             (for_in_print P (fun item => menu_item_line (fst item)
                                            (fst (snd item)) (snd (snd item)))
                _ _)).
  rewrite (bind_returns _ _ _ _ _ (print_run P _ _)).
  rewrite (bind_returns _ _ _ _ _ (print_run P _ _)).
  rewrite (bind_returns _ _ _ _ _ (print_run P _ _)).
  rewrite (bind_returns _ _ _ _ _ (print_run P _ _)).
  rewrite print_run, !printed_printed. reflexivity.
Qed.

(** X15.  The number printed next to a symptom in the menu is the number
    that selects it: the menu line of the symptom at position [k] carries
    the number [k + 1], and an entry that reads as [k + 1] adds exactly
    that symptom, or reports it as already selected. *)
Theorem menu_number_selects_symptom
    (P : Platform) (B : Builtins) (available : list (string * string))
    (k : nat) (sid desc entry : string) (selected : list string)
    (flag : bool) (w : World P) :
  available !! k = Some (sid, desc) ->
  int_of_str B entry = Some (Z.of_nat (S k)) ->
  stdout (snd (display_symptom_menu P available w))
    !! (length (stdout w) + (2 + k)) = Some (menu_item_line (S k) sid desc)
  /\ process_entries P B available [entry] selected flag w =
     if decide (sid ∈ selected) then
       (print P ("  ⓘ Already selected: " +:+ desc) ;;
        mret (Continue selected flag)) w
     else
       (add_symptom P sid ;;
        print P ("  ✓ Added: " +:+ desc) ;;
        mret (Continue (selected ++ [sid]) flag)) w.
Proof.
  intros Hk Hentry. split.
  - rewrite display_symptom_menu_lines. simpl.
    rewrite lookup_app_r by lia.
    replace (length (stdout w) + S (S k) - length (stdout w)) with (S (S k))
      by lia.
    simpl. rewrite lookup_app_l.
    + rewrite list_lookup_fmap, (enumerate_lookup 1 k available _ Hk).
      reflexivity.
    + rewrite length_map, enumerate_length. apply lookup_lt_Some in Hk. exact Hk.
  - pose proof (lookup_lt_Some _ _ _ Hk) as Hlt.
    simpl. rewrite Hentry.
    destruct (Z.eqb_spec (Z.of_nat (S k)) 0) as [|_]; [ lia | ].
    destruct (Z.eqb_spec (Z.of_nat (S k)) (-1)) as [|_]; [ lia | ].
    destruct (Z.eqb_spec (Z.of_nat (S k)) (-2)) as [|_]; [ lia | ].
    destruct (Z.leb_spec 1 (Z.of_nat (S k))); [ | lia ].
    destruct (Z.leb_spec (Z.of_nat (S k)) (Z.of_nat (length available)));
      [ | lia ].
    cbv zeta. simpl andb. cbv iota.
    replace (Z.to_nat (Z.of_nat (S k) - 1)) with k by lia.
    rewrite (nth_lookup_Some _ _ _ _ Hk). simpl.
    destruct (decide (sid ∈ selected)); reflexivity.
Qed.

Lemma menu_number_selects_symptom_witness :
  stdout (snd (display_symptom_menu app_platform (Kb.symptom_table triage_kb)
                 (boot (consulted triage_kb []))))
    !! (0 + (2 + 13)) = Some (menu_item_line 14 "fever" "Fever")
  /\ process_entries app_platform ascii_builtins (Kb.symptom_table triage_kb)
       ["14"] [] false (boot (consulted triage_kb [])) =
     if decide ("fever" ∈ []) then
       (print app_platform ("  ⓘ Already selected: " +:+ "Fever") ;;
        mret (Continue [] false)) (boot (consulted triage_kb []))
     else
       (add_symptom app_platform "fever" ;;
        print app_platform ("  ✓ Added: " +:+ "Fever") ;;
        mret (Continue ([] ++ ["fever"]) false))
         (boot (consulted triage_kb [])).
Proof.
  apply (menu_number_selects_symptom app_platform ascii_builtins
           (Kb.symptom_table triage_kb) 13 "fever" "Fever" "14" [] false
           (boot (consulted triage_kb []))).
  - reflexivity.
  - reflexivity.
Defined.

(** ** The session ends by returning *)

Section Ending.

Context (P : Platform) (B : Builtins) (available : list (string * string)).

Hypothesis Hanswers : answers P.

Lemma returns_bind {A C : Type} (m : Py P A) (f : A -> Py P C) (w : World P) :
  returns m w -> (forall a w1, returns (f a) w1) -> returns (m ≫= f) w.
Proof.
  intros (a & w1 & Hm) Hf. unfold returns.
  rewrite (bind_returns _ _ _ _ _ Hm). apply Hf.
Qed.

Lemma returns_then {A C : Type} (m : Py P A) (k : Py P C) (w : World P) :
  returns m w -> (forall w1, returns k w1) -> returns (m ;; k) w.
Proof. intros Hm Hk. apply returns_bind; [ exact Hm | intros; apply Hk ]. Qed.

Lemma returns_ret {A : Type} (a : A) (w : World P) : returns (mret a) w.
Proof. exists a, w. reflexivity. Qed.

Lemma returns_print (text : string) (w : World P) : returns (print P text) w.
Proof. eexists _, _. reflexivity. Qed.

Lemma returns_for_in {A : Type} (xs : list A) (body : A -> Py P unit)
    (w : World P) :
  (forall x w1, returns (body x) w1) -> returns (for_in xs body) w.
Proof.
  intros Hbody. revert w. induction xs as [|x xs IH]; intros w; simpl.
  - apply returns_ret.
  - apply returns_then; [ apply Hbody | apply IH ].
Qed.

Lemma query_answers (g : goal) (w : World P) :
  exists (sols : list solution) (w' : World P),
    prolog_query P g w = (Return sols, w')
    /\ (g = triage_goal -> evaluation_readable sols).
Proof.
  destruct (Hanswers g (env w)) as (sols & e' & Hq & Hread).
  exists sols, {| env := e'; stdout := stdout w |}.
  split; [ | exact Hread ]. unfold prolog_query, on_env. rewrite Hq. reflexivity.
Qed.

Lemma returns_query (g : goal) (w : World P) : returns (prolog_query P g) w.
Proof.
  destruct (query_answers g w) as (sols & w' & Hq & _). exists sols, w'. exact Hq.
Qed.

Lemma returns_add_symptom (s : string) (w : World P) :
  returns (add_symptom P s) w.
Proof.
  unfold add_symptom. apply returns_then;
    [ apply returns_query | intros; apply returns_ret ].
Qed.

Lemma returns_clear_symptoms (w : World P) : returns (clear_symptoms P) w.
Proof.
  unfold clear_symptoms. apply returns_then;
    [ apply returns_query | intros; apply returns_ret ].
Qed.

Lemma returns_run_triage (w : World P) : returns (run_triage P) w.
Proof.
  destruct (query_answers triage_goal w) as (sols & w' & Hq & Hread).
  unfold returns, run_triage. rewrite (bind_returns _ _ _ _ _ Hq).
  destruct sols as [|first rest]; [ eexists _, _; reflexivity | ].
  destruct (Hread eq_refl) as (lv & items & Hlevel & Hexps).
  rewrite bind_run. unfold subscript. rewrite Hlevel. cbv [mret Py_ret].
  rewrite bind_run, Hexps. eexists _, _. reflexivity.
Qed.

(** Under [answers], only reading a solution can make the breakdown
    raise, with a [KeyError]. *)
Lemma run_triage_all_from_raises (levels : list string)
    (acc : list (string * list string)) (w w' : World P) (e : exn) :
  run_triage_all_from P levels acc w = (Raise e, w') -> is_Exception e = true.
Proof.
  revert acc w. induction levels as [|lv levels IH]; intros acc w Hrun;
    [ discriminate | ].
  simpl in Hrun.
  destruct (query_answers (fired_rules_goal lv) w) as (sols & w1 & Hq & _).
  rewrite (bind_returns _ _ _ _ _ Hq) in Hrun.
  destruct sols as [|first rest]; [ apply (IH _ _ Hrun) | ].
  rewrite bind_run in Hrun. unfold subscript in Hrun.
  destruct (dict_get first "Explanations") as [t|];
    cbv [mret Py_ret raise] in Hrun;
    [ | injection Hrun as <- _; reflexivity ].
  rewrite bind_run in Hrun.
  destruct t as [name|items]; cbv [iterate mret Py_ret raise] in Hrun;
    apply (IH _ _ Hrun).
Qed.

Ltac returning :=
  repeat first
    [ apply returns_print
    | apply returns_ret
    | apply returns_for_in; intros
    | apply returns_then; [ | intros ] ].

Lemma returns_display_symptom_menu (w : World P) :
  returns (display_symptom_menu P available) w.
Proof. unfold display_symptom_menu. returning. Qed.

Lemma returns_show_selected (selected : list string) (w : World P) :
  returns (show_selected P available selected) w.
Proof. unfold show_selected. destruct selected; returning. Qed.

Lemma returns_display_triage_result (level : string) (exps : list string)
    (all_levels : option (list (string * list string))) (w : World P) :
  returns (display_triage_result P B level exps all_levels) w.
Proof.
  unfold display_triage_result, display_other_levels.
  do 5 (apply returns_then; [ returning | intros ]).
  apply returns_then; [ | intros; returning ].
  destruct all_levels as [levels|]; [ | returning ].
  destruct (1 <? length levels)%nat; [ | returning ].
  apply returns_then; [ returning | intros ].
  apply returns_for_in. intros entry w_entry.
  destruct (String.eqb (fst entry) level); returning.
Qed.

Lemma returns_assess (w : World P) : returns (assess P B) w.
Proof.
  unfold assess. apply returns_bind; [ apply returns_run_triage | ].
  intros result w1. apply returns_bind.
  - unfold returns, try_except. rewrite bind_run.
    destruct (run_triage_all P w1) as [[levels|e] w2] eqn:Hall.
    + eexists _, _. reflexivity.
    + rewrite (run_triage_all_from_raises _ _ _ _ _ Hall).
      eexists _, _. reflexivity.
  - intros all_levels w2. apply returns_then.
    + apply returns_display_triage_result.
    + intros. apply returns_print.
Qed.

Lemma returns_process_entries (entries : list string) (selected : list string)
    (flag : bool) (w : World P) :
  returns (process_entries P B available entries selected flag) w.
Proof.
  revert selected flag w.
  induction entries as [|entry rest IH]; intros selected flag w; simpl.
  - apply returns_ret.
  - destruct (int_of_str B entry) as [num|].
    + destruct (num =? 0)%Z; [ apply IH | ].
      destruct (num =? -1)%Z.
      { apply returns_then; [ apply returns_clear_symptoms | intros ].
        apply returns_then; [ apply returns_print | intros; apply IH ]. }
      destruct (num =? -2)%Z; [ returning | ].
      destruct ((1 <=? num)%Z && (num <=? Z.of_nat (length available))%Z).
      * cbv zeta. destruct (decide _).
        { apply returns_then; [ apply returns_print | intros; apply IH ]. }
        apply returns_then; [ apply returns_add_symptom | intros ].
        apply returns_then; [ apply returns_print | intros; apply IH ].
      * apply returns_then; [ apply returns_print | intros; apply IH ].
    + destruct (matching available _) as [|s others].
      { apply returns_then; [ apply returns_print | intros; apply IH ]. }
      destruct (decide (s ∈ selected)); [ apply IH | ].
      apply returns_then; [ apply returns_add_symptom | intros ].
      apply returns_then; [ apply returns_print | intros; apply IH ].
Qed.

Ltac loop_start :=
  apply returns_then; [ apply returns_show_selected | intros ? ];
  apply returns_then; [ apply returns_display_symptom_menu | intros ? ];
  apply returns_then; [ apply returns_print | intros ? ].

Lemma returns_menu_loop_bounded (n : nat) (keys : list keyboard)
    (selected : list string) (w : World P) :
  length keys <= n -> returns (menu_loop P B available keys selected) w.
Proof.
  revert keys selected w.
  induction n as [|n IH]; intros keys selected w Hlen.
  - destruct keys as [|k keys1]; [ | simpl in Hlen; lia ].
    simpl. loop_start. apply returns_print.
  - destruct keys as [|[text|] keys1]; simpl.
    + loop_start. apply returns_print.
    + loop_start. simpl in Hlen.
      destruct (String.eqb (str_strip B text) ""); [ apply IH; lia | ].
      apply returns_bind; [ apply returns_process_entries | ].
      intros [selected' flag|] w4; [ | apply returns_ret ].
      destruct selected' as [|s selected'], flag; try (apply IH; lia).
      apply returns_then; [ apply returns_assess | intros w5 ].
      apply returns_then; [ apply returns_print | intros w6 ].
      destruct keys1 as [|[answer|] keys2]; try apply returns_print.
      destruct (_ || _); [ | apply returns_print ].
      apply returns_then; [ apply returns_clear_symptoms | intros w7 ].
      apply returns_then; [ apply returns_print | intros w8 ].
      apply IH. simpl in Hlen. lia.
    + loop_start. apply returns_print.
Qed.

End Ending.

(** X16.  As long as Prolog answers (no query raises and an evaluation
    can be read), the menu loop ends by returning whatever is typed:
    unknown text, numbers out of range, the end of the input and an
    interrupt at a prompt all end or continue the session without an
    exception, and a breakdown that cannot be read is passed over. *)
Theorem menu_loop_ends_by_returning
    (P : Platform) (B : Builtins) (available : list (string * string))
    (keys : list keyboard) (selected : list string) (w : World P) :
  answers P ->
  exists w' : World P,
    menu_loop P B available keys selected w = (Return tt, w').
Proof.
  intros Hanswers.
  destruct (returns_menu_loop_bounded P B available Hanswers (length keys)
              keys selected w (le_n _)) as ([] & w' & Hrun).
  exists w'. exact Hrun.
Qed.

Lemma failing_goals_answer : answers failing_goals.
Proof.
  intros g e. exists [], e. split; [ reflexivity | ]. intros _. exact I.
Qed.

Lemma menu_loop_ends_by_returning_witness :
  exists w' : World failing_goals,
    menu_loop failing_goals ascii_builtins [("fever", "Fever")]
      [Line "1, x, 7"; Line "0"; CtrlC] []
      {| env := (tt : Env failing_goals); stdout := [] |} = (Return tt, w').
Proof.
  apply (menu_loop_ends_by_returning failing_goals ascii_builtins
           [("fever", "Fever")] [Line "1, x, 7"; Line "0"; CtrlC] []).
  exact failing_goals_answer.
Defined.


